(** * MOZA multi-function stalk monitor (src/main.py)

    A shallow embedding of [MOZAStalksMonitor]: the report differ
    ([process_device_data]), the button handlers ([on_button_press],
    [on_button_release]), the per-cycle automation and output
    reconciliation ([proccess_game_data], [reset_wipers]) and one
    iteration of [monitor_loop].

    Conventions.
    - [time.time()] is a reading of an external clock.  Readings are
      integers (milliseconds); the world carries the sequence of future
      readings and the number of readings consumed so far, so that every
      call in the source is one reading in the model.
    - The telemetry snapshot is the Python dict returned by
      [truck_telemetry.get_data()], a finite map from key to flag, read
      with [.get(key, False)].
    - The output sink [controller] is a table of named boolean attributes;
      each [setattr] is recorded in the order it is issued. *)

From stdpp Require Import gmap strings list fin_maps.
From Stdlib Require Import ZArith Lia Bool Sorted.

Local Open Scope Z_scope.

(** ** Data model *)

(** The fields of [MOZAStalksMonitor.__init__] that the monitor loop reads
    or writes, together with the two module globals [light_state] and
    [wiper_state].  The device handle [self.device] is present exactly
    when [connected] is true. *)
Record Monitor := mkMonitor {
  connected : bool;
  last_state : option (list Z);
  data : option (gmap string bool);
  autodisable : bool;
  read_error_count : Z;
  blink_count : Z;
  indicator_state : Z;          (* 0 = off, 1 = right, -1 = left *)
  prev_blinker_state : bool;
  last_turnsignal_time : Z;
  right_cooldown : bool;
  left_cooldown : bool;
  rain_sensor : bool;
  light_state : Z;              (* 0 = off, 1 = parking, 2 = low beam *)
  wiper_state : Z               (* -1 manual, 0 off/sensor, 1, 2, 3 *)
}.

Definition autodisable_blinks : Z := 3.
Definition autodisable_threshold : Z := 1.
Definition max_read_errors : Z := 5.
Definition switch_cooldown : Z := 150.

(** The object built by [MOZAStalksMonitor()] with the globals at their
    module-level initial values. *)
Definition init_monitor : Monitor :=
  {| connected := false; last_state := None; data := None;
     autodisable := false; read_error_count := 0; blink_count := 0;
     indicator_state := 0; prev_blinker_state := false;
     last_turnsignal_time := 0; right_cooldown := false;
     left_cooldown := false; rain_sensor := false;
     light_state := 2; wiper_state := 0 |}.

(** Attribute assignment, one setter per assigned field. *)
Definition set_connected (v : bool) (s : Monitor) : Monitor :=
  mkMonitor v (last_state s) (data s) (autodisable s) (read_error_count s)
    (blink_count s) (indicator_state s) (prev_blinker_state s)
    (last_turnsignal_time s) (right_cooldown s) (left_cooldown s)
    (rain_sensor s) (light_state s) (wiper_state s).
Definition set_last_state (v : option (list Z)) (s : Monitor) : Monitor :=
  mkMonitor (connected s) v (data s) (autodisable s) (read_error_count s)
    (blink_count s) (indicator_state s) (prev_blinker_state s)
    (last_turnsignal_time s) (right_cooldown s) (left_cooldown s)
    (rain_sensor s) (light_state s) (wiper_state s).
Definition set_data (v : option (gmap string bool)) (s : Monitor) : Monitor :=
  mkMonitor (connected s) (last_state s) v (autodisable s) (read_error_count s)
    (blink_count s) (indicator_state s) (prev_blinker_state s)
    (last_turnsignal_time s) (right_cooldown s) (left_cooldown s)
    (rain_sensor s) (light_state s) (wiper_state s).
Definition set_autodisable (v : bool) (s : Monitor) : Monitor :=
  mkMonitor (connected s) (last_state s) (data s) v (read_error_count s)
    (blink_count s) (indicator_state s) (prev_blinker_state s)
    (last_turnsignal_time s) (right_cooldown s) (left_cooldown s)
    (rain_sensor s) (light_state s) (wiper_state s).
Definition set_read_error_count (v : Z) (s : Monitor) : Monitor :=
  mkMonitor (connected s) (last_state s) (data s) (autodisable s) v
    (blink_count s) (indicator_state s) (prev_blinker_state s)
    (last_turnsignal_time s) (right_cooldown s) (left_cooldown s)
    (rain_sensor s) (light_state s) (wiper_state s).
Definition set_blink_count (v : Z) (s : Monitor) : Monitor :=
  mkMonitor (connected s) (last_state s) (data s) (autodisable s)
    (read_error_count s) v (indicator_state s) (prev_blinker_state s)
    (last_turnsignal_time s) (right_cooldown s) (left_cooldown s)
    (rain_sensor s) (light_state s) (wiper_state s).
Definition set_indicator_state (v : Z) (s : Monitor) : Monitor :=
  mkMonitor (connected s) (last_state s) (data s) (autodisable s)
    (read_error_count s) (blink_count s) v (prev_blinker_state s)
    (last_turnsignal_time s) (right_cooldown s) (left_cooldown s)
    (rain_sensor s) (light_state s) (wiper_state s).
Definition set_prev_blinker_state (v : bool) (s : Monitor) : Monitor :=
  mkMonitor (connected s) (last_state s) (data s) (autodisable s)
    (read_error_count s) (blink_count s) (indicator_state s) v
    (last_turnsignal_time s) (right_cooldown s) (left_cooldown s)
    (rain_sensor s) (light_state s) (wiper_state s).
Definition set_last_turnsignal_time (v : Z) (s : Monitor) : Monitor :=
  mkMonitor (connected s) (last_state s) (data s) (autodisable s)
    (read_error_count s) (blink_count s) (indicator_state s)
    (prev_blinker_state s) v (right_cooldown s) (left_cooldown s)
    (rain_sensor s) (light_state s) (wiper_state s).
Definition set_right_cooldown (v : bool) (s : Monitor) : Monitor :=
  mkMonitor (connected s) (last_state s) (data s) (autodisable s)
    (read_error_count s) (blink_count s) (indicator_state s)
    (prev_blinker_state s) (last_turnsignal_time s) v (left_cooldown s)
    (rain_sensor s) (light_state s) (wiper_state s).
Definition set_left_cooldown (v : bool) (s : Monitor) : Monitor :=
  mkMonitor (connected s) (last_state s) (data s) (autodisable s)
    (read_error_count s) (blink_count s) (indicator_state s)
    (prev_blinker_state s) (last_turnsignal_time s) (right_cooldown s) v
    (rain_sensor s) (light_state s) (wiper_state s).
Definition set_light_state (v : Z) (s : Monitor) : Monitor :=
  mkMonitor (connected s) (last_state s) (data s) (autodisable s)
    (read_error_count s) (blink_count s) (indicator_state s)
    (prev_blinker_state s) (last_turnsignal_time s) (right_cooldown s)
    (left_cooldown s) (rain_sensor s) v (wiper_state s).
Definition set_wiper_state (v : Z) (s : Monitor) : Monitor :=
  mkMonitor (connected s) (last_state s) (data s) (autodisable s)
    (read_error_count s) (blink_count s) (indicator_state s)
    (prev_blinker_state s) (last_turnsignal_time s) (right_cooldown s)
    (left_cooldown s) (rain_sensor s) (light_state s) v.

(** The named attributes of the [SCSController] sink written by the
    program. *)
Inductive Output :=
  | lblinker | rblinker | light | wipersback | wipers0 | wipers1 | tripreset.

#[global] Instance Output_eq_dec : EqDecision Output.
Proof. solve_decision. Defined.

(** What the reconciliation does to the outside: attribute writes on the
    sink and the [time.sleep] pauses between them (in milliseconds).  The
    pauses of the loop itself (reconnect delay, pause after a read error)
    touch no state and are not recorded. *)
Inductive Action :=
  | SetAttr (o : Output) (v : bool)
  | Sleep (ms : Z).

(** The world one loop iteration runs in. *)
Record World := mkWorld {
  self : Monitor;
  controller : Output -> bool;
  sent : list Action;           (* everything issued so far, oldest first *)
  clock : nat -> Z;             (* the n-th reading of time.time() *)
  ticks : nat                   (* readings consumed so far *)
}.

Definition with_self (f : Monitor -> Monitor) (w : World) : World :=
  mkWorld (f (self w)) (controller w) (sent w) (clock w) (ticks w).

(** [time.time()] *)
Definition time_time (w : World) : Z * World :=
  (clock w (ticks w),
   mkWorld (self w) (controller w) (sent w) (clock w) (S (ticks w))).

Definition init_controller : Output -> bool := fun _ => false.

Definition init_world (clk : nat -> Z) : World :=
  mkWorld init_monitor init_controller [] clk 0%nat.

(** ** Button handlers *)

(** [on_button_press]: one clock reading on entry for [passed_cooldown],
    a second one in the cancel branch. *)
Definition on_button_press (button_id : Z) (w0 : World) : World :=
  let '(now, w) := time_time w0 in
  let passed_cooldown := now - last_turnsignal_time (self w) >? switch_cooldown in
  if button_id =? 7 then
    if negb passed_cooldown then with_self (set_right_cooldown true) w
    else
      let w := if negb (indicator_state (self w) =? 1)
               then with_self (fun s => set_prev_blinker_state false (set_blink_count 0 s)) w
               else w in
      with_self (fun s => set_autodisable false (set_indicator_state 1 s)) w
  else if button_id =? 9 then
    if negb passed_cooldown then with_self (set_left_cooldown true) w
    else
      let w := if negb (indicator_state (self w) =? -1)
               then with_self (fun s => set_prev_blinker_state false (set_blink_count 0 s)) w
               else w in
      with_self (fun s => set_autodisable false (set_indicator_state (-1) s)) w
  else if button_id =? 8 then
    let '(now', w) := time_time w in
    let w := with_self (fun s =>
               set_right_cooldown false
                 (set_left_cooldown false (set_last_turnsignal_time now' s))) w in
    if blink_count (self w) <? autodisable_threshold
    then with_self (set_autodisable true) w
    else with_self (fun s =>
           set_prev_blinker_state false
             (set_blink_count 0 (set_indicator_state 0 (set_autodisable false s)))) w
  else if button_id =? 0 then with_self (set_light_state 0) w
  else if button_id =? 1 then with_self (set_light_state 1) w
  else if button_id =? 2 then with_self (set_light_state 2) w
  else if button_id =? 19 then with_self (set_wiper_state (-1)) w
  else if button_id =? 20 then with_self (set_wiper_state 0) w
  else if button_id =? 21 then with_self (set_wiper_state 1) w
  else if button_id =? 22 then with_self (set_wiper_state 2) w
  else if button_id =? 23 then with_self (set_wiper_state 3) w
  else w.

(** [on_button_release]: [pass]. *)
Definition on_button_release (button_id : Z) (w : World) : World := w.

(** ** Report differ *)

Inductive Edge := Pressed | Released.

Inductive ButtonEvent := Event (button_id : Z) (edge : Edge).

Definition event_id (e : ButtonEvent) : Z := let 'Event b _ := e in b.
Definition event_edge (e : ButtonEvent) : Edge := let 'Event _ d := e in d.

(** The two nested loops of [process_device_data], over an arbitrary pair
    of handlers: [for i, (old_byte, new_byte) in enumerate(zip(..))] and
    [for bit in range(8)]. *)
Section Scan.
Context {St : Type} (press release : Z -> St -> St).

Definition scan_bit (i old_byte new_byte : Z) (st : St) (bit : Z) : St :=
  let old_bit := Z.land (Z.shiftr old_byte bit) 1 in
  let new_bit := Z.land (Z.shiftr new_byte bit) 1 in
  if negb (old_bit =? new_bit) then
    let button_id := i * 8 + bit in
    if negb (new_bit =? 0) then press button_id st
    else release button_id st
  else st.

Definition range8 : list Z := [0; 1; 2; 3; 4; 5; 6; 7].

Definition scan_byte (i old_byte new_byte : Z) (st : St) : St :=
  if negb (old_byte =? new_byte)
  then fold_left (scan_bit i old_byte new_byte) range8 st
  else st.

Fixpoint scan_report (i : Z) (pairs : list (Z * Z)) (st : St) : St :=
  match pairs with
  | [] => st
  | (old_byte, new_byte) :: rest =>
      scan_report (i + 1) rest (scan_byte i old_byte new_byte st)
  end.

(** The handler call an event stands for. *)
Definition call (st : St) (e : ButtonEvent) : St :=
  match e with
  | Event b Pressed => press b st
  | Event b Released => release b st
  end.
End Scan.

(** [process_device_data] *)
Definition process_device_data (device_data : list Z) (w : World) : World :=
  match last_state (self w) with
  | None => with_self (set_last_state (Some device_data)) w
  | Some last =>
      with_self (set_last_state (Some device_data))
        (scan_report on_button_press on_button_release 0 (zip last device_data) w)
  end.

(** The handler calls made by [process_device_data], in the order they
    are made: the same loops run with handlers that record the call. *)
Definition diff (previous : option (list Z)) (current : list Z) : list ButtonEvent :=
  match previous with
  | None => []
  | Some last =>
      scan_report (fun b evs => evs ++ [Event b Pressed])
                  (fun b evs => evs ++ [Event b Released])
                  0 (zip last current) []
  end.

Definition dispatch : World -> ButtonEvent -> World :=
  call on_button_press on_button_release.

(** ** Per-cycle automation and output reconciliation *)

(** [self.data.get(key, False)] *)
Definition get (d : gmap string bool) (key : string) : bool :=
  default false (d !! key).

(** Truth value of a dict: non-empty. *)
Definition truthy (d : gmap string bool) : bool := bool_decide (d ≠ ∅).

(** Deferred-cooldown resolution, the first [if] of [proccess_game_data]. *)
Definition resolve_cooldown (now : Z) (s : Monitor) : Monitor :=
  if last_turnsignal_time s <? now - switch_cooldown then
    if right_cooldown s then
      set_right_cooldown false (set_autodisable false (set_indicator_state 1 s))
    else if left_cooldown s then
      set_left_cooldown false (set_autodisable false (set_indicator_state (-1) s))
    else s
  else s.

(** The expression assigned to [blinker_state]; [and] binds tighter than
    [or], so it reads [(L) or ((R) and not hazards)]. *)
Definition blinker_state (d : gmap string bool) (s : Monitor) : bool :=
  (get d "blinkerLeftActive" && get d "blinkerLeftOn"
     && (indicator_state s =? -1))
  || ((get d "blinkerRightActive" && get d "blinkerRightOn"
         && (indicator_state s =? 1))
      && negb (get d "lightsHazards")).

(** Off-edge detection and auto-disable, then the update of
    [prev_blinker_state]. *)
Definition count_blink (blinker : bool) (s : Monitor) : Monitor :=
  let s :=
    if prev_blinker_state s && negb blinker && negb (indicator_state s =? 0)
    then
      let s := set_blink_count (blink_count s + 1) s in
      if autodisable s && (blink_count s >=? autodisable_blinks)
      then set_blink_count 0 (set_autodisable false (set_indicator_state 0 s))
      else s
    else s in
  set_prev_blinker_state blinker s.

(** The values of [lblinker_should_set] and [rblinker_should_set]. *)
Definition blinker_should_set (d : gmap string bool) (s : Monitor) : bool * bool :=
  let left_active := get d "blinkerLeftActive" in
  let right_active := get d "blinkerRightActive" in
  let left_should_be_active := indicator_state s =? -1 in
  let right_should_be_active := indicator_state s =? 1 in
  if indicator_state s =? -1 then
    let l := left_should_be_active && negb left_active in
    let l := if negb left_should_be_active && left_active then true else l in
    (l, false)
  else if indicator_state s =? 1 then
    let r := right_should_be_active && negb right_active in
    let r := if negb right_should_be_active && right_active then true else r in
    (false, r)
  else if indicator_state s =? 0 then
    (if left_active then true else false,
     if right_active then true else false)
  else (false, false).

Definition indicator_commands (d : gmap string bool) (s : Monitor) : list Action :=
  let left_on := get d "blinkerLeftOn" in
  let right_on := get d "blinkerRightOn" in
  let '(lblinker_should_set, rblinker_should_set) := blinker_should_set d s in
  if (lblinker_should_set || rblinker_should_set) && negb (left_on || right_on)
  then [SetAttr lblinker lblinker_should_set;
        SetAttr rblinker rblinker_should_set;
        Sleep 50;
        SetAttr lblinker false;
        SetAttr rblinker false]
  else [].

Definition current_light_state (d : gmap string bool) : Z :=
  if get d "lightsBeamLow" then 2
  else if get d "lightsParking" then 1
  else 0.

Definition light_commands (d : gmap string bool) (s : Monitor) : list Action :=
  if negb (current_light_state d =? light_state s)
  then [SetAttr light true; Sleep 50; SetAttr light false; Sleep 50]
  else [].

(** [reset_wipers] *)
Definition reset_wipers : list Action :=
  [SetAttr wipersback false; SetAttr wipers0 false;
   SetAttr wipers1 false; SetAttr tripreset false].

Definition wiper_commands (s : Monitor) : list Action :=
  (if rain_sensor s && (wiper_state s =? 0)
   then reset_wipers ++ [SetAttr wipersback true]
   else [SetAttr wipersback false])
  ++
  (if (wiper_state s =? 0) && negb (rain_sensor s)
   then reset_wipers ++ [SetAttr tripreset true]
   else if wiper_state s =? 1 then reset_wipers ++ [SetAttr wipersback true]
   else if wiper_state s =? 2 then reset_wipers ++ [SetAttr wipers0 true]
   else if wiper_state s =? 3 then reset_wipers ++ [SetAttr wipers1 true]
   else if wiper_state s =? -1 then reset_wipers ++ [SetAttr wipers0 true]
   else []).

(** The body of the [try] block: everything sent to the game in one call. *)
Definition reconcile (d : gmap string bool) (s : Monitor) : list Action :=
  indicator_commands d s ++ light_commands d s ++ wiper_commands s.

(** [setattr(controller, o, v)] *)
Definition setattr (o : Output) (v : bool) (c : Output -> bool) : Output -> bool :=
  fun o' => if decide (o' = o) then v else c o'.

Definition perform (c : Output -> bool) (a : Action) : Output -> bool :=
  match a with
  | SetAttr o v => setattr o v c
  | Sleep _ => c
  end.

Definition send (acts : list Action) (w : World) : World :=
  mkWorld (self w) (fold_left perform acts (controller w))
          (sent w ++ acts) (clock w) (ticks w).

(** [proccess_game_data] *)
Definition proccess_game_data (w0 : World) : World :=
  match data (self w0) with
  | None => w0
  | Some d =>
      if negb (truthy d) then w0
      else
        let '(now, w) := time_time w0 in
        let w := with_self (resolve_cooldown now) w in
        let w := with_self (fun s => count_blink (blinker_state d s) s) w in
        send (reconcile d (self w)) w
  end.

(** [proccess_game_data] when the sink raises: the writes sit in the
    [try] block, so a [setattr] that raises skips the rest of the block
    (the handler only prints) and only the first [n] commands take
    effect.  The monitor fields are assigned before the block and are the
    same; [proccess_game_data] is the run in which no write raises. *)
Definition proccess_game_data_cut (n : nat) (w0 : World) : World :=
  match data (self w0) with
  | None => w0
  | Some d =>
      if negb (truthy d) then w0
      else
        let '(now, w) := time_time w0 in
        let w := with_self (resolve_cooldown now) w in
        let w := with_self (fun s => count_blink (blinker_state d s) s) w in
        send (take n (reconcile d (self w))) w
  end.

(** ** One iteration of [monitor_loop] *)

(** Outcome of [self.device.read(64, timeout_ms=50)]: a report (empty
    when nothing arrived within the timeout), an [OSError], or some
    other exception. *)
Inductive ReadResult :=
  | ReadData (device_data : list Z)
  | ReadOSError
  | ReadException.

(** What the outside supplies in one iteration: whether discovery and
    opening of the device would succeed, the outcome of the read, and
    the telemetry snapshot ([None] when [get_data] raises). *)
Record CycleInput := mkCycleInput {
  discovery : bool;
  read : ReadResult;
  telemetry : option (gmap string bool)
}.

(** [disconnect] *)
Definition disconnect (w : World) : World := with_self (set_connected false) w.

(** [connect], called with [connected] false: [disconnect()], then
    discovery and open. *)
Definition connect (found : bool) (w : World) : bool * World :=
  if connected (self w) then (true, w)
  else
    let w := disconnect w in
    if found then
      (true,
       with_self (fun s =>
         set_last_state None (set_read_error_count 0 (set_connected true s))) w)
    else (false, w).

Definition is_nonempty (device_data : list Z) : bool :=
  match device_data with [] => false | _ => true end.

Definition data_truthy (s : Monitor) : bool :=
  match data s with Some d => truthy d | None => false end.

Definition monitor_cycle (i : CycleInput) (w : World) : World :=
  let '(ok, w) := if connected (self w) then (true, w)
                  else connect (discovery i) w in
  if negb ok then w
  else
    match read i with
    | ReadData device_data =>
        let w := with_self (set_data (telemetry i)) w in
        let w :=
          if is_nonempty device_data && data_truthy (self w)
          then proccess_game_data (process_device_data device_data w)
          else if is_nonempty device_data
          then process_device_data device_data w
          else w in
        with_self (set_read_error_count 0) w
    | ReadOSError =>
        let w := with_self (fun s =>
                   set_read_error_count (read_error_count s + 1) s) w in
        if read_error_count (self w) >=? max_read_errors
        then disconnect w
        else w
    | ReadException => w
    end.

Definition run (inputs : list CycleInput) (w : World) : World :=
  fold_left (fun w i => monitor_cycle i w) inputs w.

(** ** Vocabulary of the properties *)

(** The button ids with a branch in [on_button_press]. *)
Definition handled_ids : list Z := [0; 1; 2; 7; 8; 9; 19; 20; 21; 22; 23].

(** The edge of a changed bit, from its new value. *)
Definition edge_of (new_bit : bool) : Edge :=
  if new_bit then Pressed else Released.

(** The events of one bit, one byte and a whole report, written with
    [Z.testbit]; [scan_report] is shown to make exactly these calls. *)
Definition bit_events (i old_byte new_byte bit : Z) : list ButtonEvent :=
  if Bool.eqb (Z.testbit old_byte bit) (Z.testbit new_byte bit) then []
  else [Event (i * 8 + bit) (edge_of (Z.testbit new_byte bit))].

Definition byte_events (i old_byte new_byte : Z) : list ButtonEvent :=
  flat_map (bit_events i old_byte new_byte) range8.

Fixpoint report_events (i : Z) (pairs : list (Z * Z)) : list ButtonEvent :=
  match pairs with
  | [] => []
  | (old_byte, new_byte) :: rest =>
      byte_events i old_byte new_byte ++ report_events (i + 1) rest
  end.

(** What every button handler leaves alone: the connection fields, the
    snapshot, the sink, the commands issued and the clock. *)
Definition same_link (w w' : World) : Prop :=
  connected (self w') = connected (self w)
  /\ read_error_count (self w') = read_error_count (self w)
  /\ last_state (self w') = last_state (self w)
  /\ data (self w') = data (self w)
  /\ rain_sensor (self w') = rain_sensor (self w)
  /\ controller w' = controller w
  /\ sent w' = sent w
  /\ clock w' = clock w.

(** Number of wiper outputs held true on the sink. *)
Definition wipers_held (c : Output -> bool) : nat :=
  (Nat.b2n (c wipersback) + Nat.b2n (c tripreset)
   + Nat.b2n (c wipers0) + Nat.b2n (c wipers1))%nat.

Definition at_most_one_wiper (c : Output -> bool) : Prop :=
  (wipers_held c <= 1)%nat.

(** The last value written to [o] by a list of commands, if any. *)
Fixpoint last_write (o : Output) (acts : list Action) : option bool :=
  match acts with
  | [] => None
  | a :: rest =>
      match last_write o rest with
      | Some v => Some v
      | None =>
          match a with
          | SetAttr o' v => if decide (o' = o) then Some v else None
          | Sleep _ => None
          end
      end
  end.

Definition writes (o : Output) (v : bool) (a : Action) : bool :=
  match a with
  | SetAttr o' v' => bool_decide (o' = o) && Bool.eqb v' v
  | Sleep _ => false
  end.

(** A pulse on [o]: the output is set true and, later in the same list
    of commands, set false again. *)
Fixpoint pulsed (o : Output) (acts : list Action) : bool :=
  match acts with
  | [] => false
  | a :: rest => (writes o true a && existsb (writes o false) rest) || pulsed o rest
  end.


(** The counter is never negative, is zero while the indicator is off,
    and stays below [autodisable_blinks] while auto-disable is pending. *)
Definition blink_inv (s : Monitor) : Prop :=
  0 <= blink_count s
  /\ (indicator_state s = 0 -> blink_count s = 0)
  /\ (autodisable s = true -> blink_count s < autodisable_blinks).

(** ** Concrete runs *)

(** A telemetry dict from its items. *)
Definition snapshot (items : list (string * bool)) : gmap string bool :=
  list_to_map items.

Definition idle : gmap string bool :=
  snapshot [("blinkerLeftActive", false); ("lightsBeamLow", true)].
Definition left_lit : gmap string bool :=
  snapshot [("blinkerLeftActive", true); ("blinkerLeftOn", true);
            ("lightsBeamLow", true)].
Definition left_dark : gmap string bool :=
  snapshot [("blinkerLeftActive", true); ("blinkerLeftOn", false);
            ("lightsBeamLow", true)].
Definition left_lit_hazards : gmap string bool :=
  snapshot [("blinkerLeftActive", true); ("blinkerLeftOn", true);
            ("lightsHazards", true); ("lightsBeamLow", true)].

(** A clock that gives the listed readings, then stays at the last one. *)
Definition clock_of (readings : list Z) : nat -> Z :=
  fun n => nth n readings (List.last readings 0).

(** A cycle with the device connected or found, a report read and a
    snapshot fetched. *)
Definition cycle (report : list Z) (d : gmap string bool) : CycleInput :=
  mkCycleInput true (ReadData report) (Some d).

(** Button 7 is bit 7 of byte 0; buttons 8 and 9 are bits 0 and 1 of
    byte 1.  Left is pressed, the stalk returns to center (cancel pressed,
    left released) while the left lamp is lit, then right and left are
    both pressed within the cooldown while the lamp goes dark. *)
Definition left_then_center : list CycleInput :=
  [cycle [0; 0] idle; cycle [0; 2] idle; cycle [0; 1] left_lit].

Definition both_pending : list CycleInput :=
  left_then_center ++ [cycle [128; 3] left_dark].

Definition right_pending : list CycleInput :=
  left_then_center ++ [cycle [128; 1] left_dark].

(** Readings, in the order they are taken: one per [proccess_game_data],
    one per press, two for the cancel press. *)
Definition readings_both : list Z :=
  [1000; 2000; 2010; 3000; 3000; 3010; 3050; 3060; 3070; 3300; 3350].

Definition readings_right : list Z :=
  [1000; 2000; 2010; 3000; 3000; 3010; 3050; 3070; 3300; 3350].

Definition world_both_pending : World :=
  run both_pending (init_world (clock_of readings_both)).

Definition world_right_pending : World :=
  run right_pending (init_world (clock_of readings_right)).

Definition hazards_dark : gmap string bool :=
  snapshot [("blinkerLeftActive", true); ("blinkerLeftOn", false);
            ("lightsHazards", true); ("lightsBeamLow", true)].

(** Left is pressed and held; the hazard lights are on while the left
    lamp is lit and then goes dark. *)
Definition left_with_hazards : list CycleInput :=
  [cycle [0; 0] idle; cycle [0; 2] idle;
   cycle [0; 2] left_lit_hazards; cycle [0; 2] hazards_dark].

Definition readings_hazards : list Z := [1000; 2000; 2010; 2400; 2800].

(** A cycle in which the read times out with nothing received while the
    telemetry snapshot is available. *)
Definition no_report : CycleInput :=
  mkCycleInput true (ReadData []) (Some left_dark).

Definition failed_read : CycleInput := mkCycleInput true ReadOSError None.


(** ** Device discovery *)

(** A descriptor returned by [hid.enumerate()]; a missing
    [product_string] reads as the empty string
    ([device.get('product_string', '')]). *)
Record DeviceInfo := mkDeviceInfo {
  product_string : string;
  vendor_id : Z;
  product_id : Z
}.

Definition target_device_name : string := "MOZA Multi-function Stalk".

(** The search loop of [find_moza_device]: exact match only. *)
Fixpoint first_exact_match (devices : list DeviceInfo) : option DeviceInfo :=
  match devices with
  | [] => None
  | device :: rest =>
      if String.eqb (product_string device) target_device_name
      then Some device
      else first_exact_match rest
  end.

(** [find_moza_device]; the argument is [None] when [hid.enumerate()]
    raises. *)
Definition find_moza_device (enumerated : option (list DeviceInfo))
  : option DeviceInfo :=
  match enumerated with
  | None => None
  | Some devices => first_exact_match devices
  end.

(** Whether [connect] gets through discovery and [open]: the device is
    found and opening it does not raise. *)
Definition discovered (enumerated : option (list DeviceInfo)) (open_ok : bool)
  : bool :=
  match find_moza_device enumerated with
  | Some _ => open_ok
  | None => false
  end.

(** ** Vocabulary of the further properties *)

Definition flip_edge (d : Edge) : Edge :=
  match d with Pressed => Released | Released => Pressed end.

Definition flip_event (e : ButtonEvent) : ButtonEvent :=
  let 'Event b d := e in Event b (flip_edge d).

(** The wiper output each [wiper_state] selects, with the rain-sensor
    gate on state 0. *)
Definition selected_wiper (rain : bool) (state : Z) : option Output :=
  if state =? 0 then Some (if rain then wipersback else tripreset)
  else if state =? 1 then Some wipersback
  else if state =? 2 then Some wipers0
  else if state =? 3 then Some wipers1
  else if state =? -1 then Some wipers0
  else None.

Definition is_wiper (o : Output) : bool :=
  match o with
  | wipersback | tripreset | wipers0 | wipers1 => true
  | _ => false
  end.

(** The values the code ever assigns to the three selectors. *)
Definition in_domain (s : Monitor) : Prop :=
  In (indicator_state s) [-1; 0; 1]
  /\ In (light_state s) [0; 1; 2]
  /\ In (wiper_state s) [-1; 0; 1; 2; 3].

(** The read-error counter stays within its threshold, strictly below it
    while connected. *)
Definition conn_inv (s : Monitor) : Prop :=
  0 <= read_error_count s <= max_read_errors
  /\ (connected s = true -> read_error_count s < max_read_errors).

(** The three pulse outputs are low. *)
Definition pulses_low (c : Output -> bool) : Prop :=
  c lblinker = false /\ c rblinker = false /\ c light = false.

(** One blink of the lamp as the loop sees it: an unchanged report with
    the lamp lit, then with the lamp dark. *)
Definition one_blink (report : list Z) (lit dark : gmap string bool)
  : list CycleInput :=
  [cycle report lit; cycle report dark].

(** A command that writes none of the four wiper outputs. *)
Definition spares_wipers (a : Action) : Prop :=
  match a with
  | SetAttr o _ => is_wiper o = false
  | Sleep _ => True
  end.

(** The loop is connected, keeps reading the same non-empty report and
    has no deferred request pending. *)
Definition steady (report : list Z) (s : Monitor) : Prop :=
  connected s = true
  /\ last_state s = Some report
  /\ is_nonempty report = true
  /\ right_cooldown s = false
  /\ left_cooldown s = false.

(** The world after left was pressed and the stalk returned to center
    before any blink was counted. *)
Definition world_left_centered : World :=
  run left_then_center (init_world (clock_of readings_both)).


(** A command that writes none of the three pulse outputs. *)
Definition spares_pulses (a : Action) : Prop :=
  match a with
  | SetAttr o _ => is_wiper o = true
  | Sleep _ => True
  end.





(** * Properties *)

(** ** Report differ *)

Lemma bit_value (a bit : Z) :
  0 <= bit -> Z.land (Z.shiftr a bit) 1 = Z.b2z (Z.testbit a bit).
Proof.
  intros Hbit. change 1 with (Z.ones 1).
  rewrite Z.land_ones by lia. rewrite Z.testbit_spec' by lia.
  rewrite Z.shiftr_div_pow2 by lia. reflexivity.
Qed.

Section ScanEvents.
Context {St : Type} (press release : Z -> St -> St).

Lemma scan_bit_events (i o n bit : Z) (st : St) :
  0 <= bit ->
  scan_bit press release i o n st bit = fold_left (call press release) (bit_events i o n bit) st.
Proof.
  intros Hbit. unfold scan_bit, bit_events.
  rewrite !bit_value by assumption.
  destruct (Z.testbit o bit), (Z.testbit n bit); reflexivity.
Qed.

Lemma byte_events_same (i o : Z) : byte_events i o o = [].
Proof.
  unfold byte_events, bit_events, range8. cbn.
  rewrite !Bool.eqb_reflx. reflexivity.
Qed.

Lemma scan_byte_events (i o n : Z) (st : St) :
  scan_byte press release i o n st = fold_left (call press release) (byte_events i o n) st.
Proof.
  unfold scan_byte. destruct (Z.eqb_spec o n) as [->|Hne]; cbn [negb].
  - rewrite byte_events_same. reflexivity.
  - unfold byte_events, range8. cbn [flat_map fold_left].
    rewrite !fold_left_app. cbn [fold_left].
    rewrite <- !scan_bit_events by lia. reflexivity.
Qed.

Lemma scan_report_events (pairs : list (Z * Z)) (i : Z) (st : St) :
  scan_report press release i pairs st = fold_left (call press release) (report_events i pairs) st.
Proof.
  revert i st. induction pairs as [|[o n] rest IH]; intros i st; cbn.
  - reflexivity.
  - rewrite fold_left_app, IH, scan_byte_events. reflexivity.
Qed.
End ScanEvents.

Lemma fold_left_record (evs acc : list ButtonEvent) :
  fold_left (call (fun b evs => evs ++ [Event b Pressed])
                  (fun b evs => evs ++ [Event b Released])) evs acc
  = acc ++ evs.
Proof.
  revert acc. induction evs as [|[b []] evs IH]; intros acc; cbn.
  - rewrite app_nil_r. reflexivity.
  - rewrite IH, <- app_assoc. reflexivity.
  - rewrite IH, <- app_assoc. reflexivity.
Qed.

Lemma diff_events (last current : list Z) :
  diff (Some last) current = report_events 0 (zip last current).
Proof.
  unfold diff. rewrite scan_report_events. apply fold_left_record.
Qed.

Lemma in_bit_events (i o n bit b : Z) (e : Edge) :
  In (Event b e) (bit_events i o n bit) <->
  b = i * 8 + bit /\ Z.testbit o bit <> Z.testbit n bit
  /\ e = edge_of (Z.testbit n bit).
Proof.
  unfold bit_events.
  destruct (Z.testbit o bit), (Z.testbit n bit); cbn;
    intuition (try congruence).
Qed.

Lemma in_byte_events (i o n b : Z) (e : Edge) :
  In (Event b e) (byte_events i o n) <->
  exists bit, 0 <= bit < 8 /\ b = i * 8 + bit
    /\ Z.testbit o bit <> Z.testbit n bit /\ e = edge_of (Z.testbit n bit).
Proof.
  unfold byte_events. rewrite in_flat_map. split.
  - intros (bit & Hbit & Hin). apply in_bit_events in Hin.
    exists bit. split; [|tauto].
    unfold range8 in Hbit. cbn in Hbit. lia.
  - intros (bit & Hr & Hrest). exists bit. split.
    + unfold range8. cbn. lia.
    + apply in_bit_events. tauto.
Qed.

Lemma in_report_events (pairs : list (Z * Z)) (i b : Z) (e : Edge) :
  In (Event b e) (report_events i pairs) <->
  exists (k : nat) (o n bit : Z),
    pairs !! k = Some (o, n) /\ 0 <= bit < 8 /\ b = (i + Z.of_nat k) * 8 + bit
    /\ Z.testbit o bit <> Z.testbit n bit /\ e = edge_of (Z.testbit n bit).
Proof.
  revert i. induction pairs as [|[o n] rest IH]; intros i; cbn [report_events].
  - split; [intros []|]. intros (k & ? & ? & ? & Hk & _). destruct k; discriminate.
  - rewrite in_app_iff, in_byte_events, IH. split.
    + intros [(bit & ? & ? & ? & ?)|(k & o' & n' & bit & ? & ? & ? & ? & ?)].
      * exists 0%nat, o, n, bit. cbn. repeat split; try tauto; lia.
      * exists (S k), o', n', bit. cbn. repeat split; try tauto; lia.
    + intros ([|k] & o' & n' & bit & Hk & ? & ? & ? & ?); cbn in Hk.
      * injection Hk as <- <-. left. exists bit. repeat split; try tauto; lia.
      * right. exists k, o', n', bit. repeat split; try tauto; lia.
Qed.

Lemma bit_events_ids (i o n bit : Z) :
  Forall (fun e => event_id e = i * 8 + bit) (bit_events i o n bit).
Proof.
  unfold bit_events. destruct (Bool.eqb _ _); repeat constructor.
Qed.

Lemma byte_events_sorted (i o n : Z) :
  StronglySorted Z.lt (map event_id (byte_events i o n)).
Proof.
  unfold byte_events, range8, bit_events. cbn [flat_map].
  repeat match goal with
  | |- context [Bool.eqb ?a ?b] => destruct (Bool.eqb a b)
  end; cbn; repeat (constructor; [|repeat constructor; lia]); constructor.
Qed.

Lemma byte_events_range (i o n : Z) :
  Forall (fun b => i * 8 <= b < (i + 1) * 8) (map event_id (byte_events i o n)).
Proof.
  apply Forall_forall. intros b Hb. apply list_elem_of_In, in_map_iff in Hb.
  destruct Hb as ([b' e] & <- & Hin). apply in_byte_events in Hin.
  destruct Hin as (bit & ? & -> & _). cbn. lia.
Qed.

Lemma report_events_range (pairs : list (Z * Z)) (i : Z) :
  Forall (fun b => i * 8 <= b) (map event_id (report_events i pairs)).
Proof.
  apply Forall_forall. intros b Hb. apply list_elem_of_In, in_map_iff in Hb.
  destruct Hb as ([b' e] & <- & Hin). apply in_report_events in Hin.
  destruct Hin as (k & ? & ? & bit & _ & ? & -> & _). cbn. lia.
Qed.

Lemma sorted_app (l1 l2 : list Z) (m : Z) :
  StronglySorted Z.lt l1 -> StronglySorted Z.lt l2 ->
  Forall (fun b => b < m) l1 -> Forall (fun b => m <= b) l2 ->
  StronglySorted Z.lt (l1 ++ l2).
Proof.
  intros H1 H2 Hlt Hge. induction H1 as [|a l1 Hs IH Ha]; cbn; [assumption|].
  apply Forall_cons in Hlt. destruct Hlt as [Hlt1 Hlt].
  constructor; [auto|]. apply Forall_app. split; [assumption|].
  eapply Forall_impl; [exact Hge|]. cbn. intros; lia.
Qed.

Lemma report_events_sorted (pairs : list (Z * Z)) (i : Z) :
  StronglySorted Z.lt (map event_id (report_events i pairs)).
Proof.
  revert i. induction pairs as [|[o n] rest IH]; intros i; cbn [report_events].
  - constructor.
  - rewrite map_app. apply sorted_app with (m := (i + 1) * 8).
    + apply byte_events_sorted.
    + apply IH.
    + eapply Forall_impl; [apply byte_events_range|]. cbn. intros; lia.
    + apply report_events_range.
Qed.

Lemma differ_calls (current : list Z) (w : World) :
  process_device_data current w
  = with_self (set_last_state (Some current))
      (fold_left dispatch (diff (last_state (self w)) current) w)
  /\ last_state (self (process_device_data current w)) = Some current.
Proof.
  unfold process_device_data. destruct (last_state (self w)) as [last|].
  - rewrite diff_events, scan_report_events. split; reflexivity.
  - split; reflexivity.
Qed.

(** C6. With no previous report the differ makes no handler call and stores
    the current report as baseline; otherwise the handler calls are exactly
    the bits that differ between the two reports at a byte index present in
    both, [Pressed] when the new bit is 1 and [Released] when it is 0, with
    [button_id = byte_index * 8 + bit_index], in strictly ascending order of
    [button_id] (ascending byte index, then ascending bit index); the
    current report is stored as the new baseline. *)
Theorem differ_events_exact (current : list Z) (w : World) :
  diff None current = []
  /\ process_device_data current w
     = with_self (set_last_state (Some current))
         (fold_left dispatch (diff (last_state (self w)) current) w)
  /\ last_state (self (process_device_data current w)) = Some current
  /\ (forall (last : list Z) (b : Z) (e : Edge),
        In (Event b e) (diff (Some last) current) <->
        exists (k : nat) (o n bit : Z),
          last !! k = Some o /\ current !! k = Some n /\ 0 <= bit < 8
          /\ b = Z.of_nat k * 8 + bit
          /\ Z.testbit o bit <> Z.testbit n bit
          /\ e = edge_of (Z.testbit n bit))
  /\ (forall last : list Z,
        StronglySorted Z.lt (map event_id (diff (Some last) current))).
Proof.
  split; [reflexivity|]. split; [|split; [|split]].
  - apply differ_calls.
  - apply differ_calls.
  - intros last b e. rewrite diff_events, in_report_events. split.
    + intros (k & o & n & bit & Hk & ? & ? & ? & ?).
      apply lookup_zip_with_Some in Hk. destruct Hk as (o' & n' & Heq & ? & ?).
      injection Heq as -> ->. exists k, o', n', bit. repeat split; try tauto; lia.
    + intros (k & o & n & bit & ? & ? & ? & ? & ? & ?).
      exists k, o, n, bit. repeat split; try tauto; try lia.
      apply lookup_zip_with_Some. eauto.
  - intros last. rewrite diff_events. apply report_events_sorted.
Qed.

(** A report byte has no bit above bit 7, so for reports made of bytes
    the eight bits inspected are all the bits that can differ. *)
Lemma byte_high_bits (a bit : Z) :
  0 <= a < 256 -> 8 <= bit -> Z.testbit a bit = false.
Proof.
  intros Ha Hbit. destruct (Z.eq_dec a 0) as [->|Hne].
  - apply Z.bits_0.
  - apply Z.bits_above_log2; [lia|].
    assert (Z.log2 a < 8) by (apply Z.log2_lt_pow2; lia). lia.
Qed.

Lemma changed_bit_of_bytes (last current : list Z) (k : nat) (o n bit : Z) :
  Forall (fun a => 0 <= a < 256) last ->
  Forall (fun a => 0 <= a < 256) current ->
  last !! k = Some o -> current !! k = Some n -> 0 <= bit ->
  Z.testbit o bit <> Z.testbit n bit ->
  In (Event (Z.of_nat k * 8 + bit) (edge_of (Z.testbit n bit)))
     (diff (Some last) current).
Proof.
  intros Hl Hc Ho Hn Hbit Hne.
  assert (Hob : 0 <= o < 256)
    by (eapply (proj1 (Forall_lookup _ last)) in Hl; eauto).
  assert (Hnb : 0 <= n < 256)
    by (eapply (proj1 (Forall_lookup _ current)) in Hc; eauto).
  assert (bit < 8).
  { destruct (Z_lt_le_dec bit 8) as [|Hge]; [assumption|]. exfalso. apply Hne.
    rewrite (byte_high_bits o bit Hob Hge), (byte_high_bits n bit Hnb Hge).
    reflexivity. }
  rewrite diff_events. apply in_report_events.
  exists k, o, n, bit. repeat split; try tauto; try lia.
  apply lookup_zip_with_Some. eauto.
Qed.

(** ** Button handlers *)

(** C5. Pressing the cancel button (id 8) records the clock reading taken
    in that branch as [last_turnsignal_time] and clears both cooldown
    flags; with [blink_count] below [autodisable_threshold] (1) it sets
    [autodisable] and leaves [indicator_state] (and [blink_count]) as they
    were, otherwise it sets [indicator_state] to 0 and [blink_count] to 0. *)
Theorem cancel_press (w : World) :
  last_turnsignal_time (self (on_button_press 8 w)) = clock w (S (ticks w))
  /\ left_cooldown (self (on_button_press 8 w)) = false
  /\ right_cooldown (self (on_button_press 8 w)) = false
  /\ if blink_count (self w) <? autodisable_threshold
     then autodisable (self (on_button_press 8 w)) = true
          /\ indicator_state (self (on_button_press 8 w)) = indicator_state (self w)
          /\ blink_count (self (on_button_press 8 w)) = blink_count (self w)
     else indicator_state (self (on_button_press 8 w)) = 0
          /\ blink_count (self (on_button_press 8 w)) = 0
          /\ autodisable (self (on_button_press 8 w)) = false.
Proof.
  destruct w as [s c snt clk t]. cbn.
  destruct (blink_count s <? autodisable_threshold); cbn;
    repeat split; reflexivity.
Qed.

(** C10. A press of a button id outside
    {0, 1, 2, 7, 8, 9, 19, 20, 21, 22, 23} leaves the monitor state, the
    sink and the list of issued commands as they were, and so does the
    release of any button. *)
Theorem unhandled_event_frame (b : Z) (w : World) (H : ~ In b handled_ids) :
  self (on_button_press b w) = self w
  /\ controller (on_button_press b w) = controller w
  /\ sent (on_button_press b w) = sent w
  /\ forall b' : Z, on_button_release b' w = w.
Proof.
  assert (Hb : Forall (fun h => b <> h) handled_ids).
  { apply Forall_forall. intros h Hh ->. apply H. apply list_elem_of_In, Hh. }
  unfold handled_ids in Hb.
  repeat match goal with
  | H : Forall _ (_ :: _) |- _ => apply Forall_cons in H; destruct H
  end.
  unfold on_button_press, time_time. cbn.
  repeat match goal with
  | |- context [b =? ?k] => destruct (Z.eqb_spec b k); [congruence|]
  end.
  auto.
Qed.

Lemma unhandled_event_frame_witness :
  ~ In 5 handled_ids
  /\ self (on_button_press 5 (init_world (fun _ => 1000))) = init_monitor.
Proof.
  assert (H : ~ In 5 handled_ids) by (cbn; lia).
  split; [exact H|].
  exact (proj1 (unhandled_event_frame 5 (init_world (fun _ => 1000)) H)).
Defined.

Lemma same_link_refl (w : World) : same_link w w.
Proof. repeat split. Qed.

Lemma same_link_trans (w1 w2 w3 : World) :
  same_link w1 w2 -> same_link w2 w3 -> same_link w1 w3.
Proof. unfold same_link. intuition congruence. Qed.

Ltac press_cases :=
  unfold on_button_press, time_time; cbn;
  repeat match goal with
  | |- context [if ?c then _ else _] => destruct c eqn:?; cbn
  end.

Lemma on_button_press_link (b : Z) (w : World) :
  same_link w (on_button_press b w).
Proof. press_cases; repeat split. Qed.

Lemma dispatch_link (e : ButtonEvent) (w : World) : same_link w (dispatch w e).
Proof.
  destruct e as [b []]; cbn.
  - apply on_button_press_link.
  - apply same_link_refl.
Qed.

Lemma fold_dispatch_link (evs : list ButtonEvent) (w : World) :
  same_link w (fold_left dispatch evs w).
Proof.
  revert w. induction evs as [|e evs IH]; intros w; cbn.
  - apply same_link_refl.
  - eapply same_link_trans; [apply dispatch_link|apply IH].
Qed.

(** ** Connection supervision *)

Lemma process_device_data_conn (device_data : list Z) (w : World) :
  connected (self (process_device_data device_data w)) = connected (self w)
  /\ controller (process_device_data device_data w) = controller w
  /\ sent (process_device_data device_data w) = sent w.
Proof.
  destruct (differ_calls device_data w) as [-> _].
  destruct (fold_dispatch_link (diff (last_state (self w)) device_data) w)
    as (? & _ & _ & _ & _ & ? & ? & _).
  cbn. auto.
Qed.

Lemma proccess_game_data_conn (w : World) :
  connected (self (proccess_game_data w)) = connected (self w).
Proof.
  unfold proccess_game_data.
  destruct (data (self w)) as [d|]; [|reflexivity].
  destruct (truthy d); cbn; [|reflexivity].
  unfold count_blink, resolve_cooldown.
  repeat match goal with
  | |- context [if ?c then _ else _] => destruct c; cbn
  end; reflexivity.
Qed.

Lemma failed_read_cycle (i : CycleInput) (w : World) :
  connected (self w) = true -> read i = ReadOSError ->
  read_error_count (self (monitor_cycle i w)) = read_error_count (self w) + 1
  /\ connected (self (monitor_cycle i w))
     = (read_error_count (self w) + 1 <? max_read_errors).
Proof.
  intros Hc Hr. unfold monitor_cycle. rewrite Hc, Hr. cbn.
  rewrite Z.geb_leb.
  destruct (Z.leb_spec max_read_errors (read_error_count (self w) + 1));
    destruct (Z.ltb_spec (read_error_count (self w) + 1) max_read_errors);
    try lia; cbn; auto.
Qed.

Lemma failed_reads_run (fails : list CycleInput) (w : World) :
  connected (self w) = true ->
  read_error_count (self w) < max_read_errors ->
  Forall (fun i => read i = ReadOSError) fails ->
  read_error_count (self w) + Z.of_nat (length fails) <= max_read_errors ->
  read_error_count (self (run fails w))
    = read_error_count (self w) + Z.of_nat (length fails)
  /\ connected (self (run fails w))
     = (read_error_count (self w) + Z.of_nat (length fails) <? max_read_errors).
Proof.
  revert w. induction fails as [|i fails IH]; intros w Hc Hlt Hall Hlen.
  - cbn in *. rewrite Z.add_0_r. split; [reflexivity|].
    rewrite Hc. symmetry. apply Z.ltb_lt. lia.
  - apply Forall_cons in Hall. destruct Hall as [Hi Hall].
    destruct (failed_read_cycle i w Hc Hi) as [Hcount Hconn].
    cbn [run fold_left length] in *.
    change (fold_left (fun w i => monitor_cycle i w) fails (monitor_cycle i w))
      with (run fails (monitor_cycle i w)).
    destruct fails as [|i' fails].
    { cbn. rewrite Hcount, Hconn. split; [lia|]. reflexivity. }
    cbn [length] in Hlen.
    destruct (IH (monitor_cycle i w)) as [IH1 IH2].
    + rewrite Hconn. apply Z.ltb_lt. lia.
    + lia.
    + assumption.
    + cbn [length]. lia.
    + rewrite IH1, IH2, Hcount. split; [lia|]. f_equal. lia.
Qed.

(** C7. After a cycle whose read succeeds the consecutive-read-error
    counter is 0 and the monitor is still connected; after [n <= 5]
    further cycles whose read raises [OSError] the counter is [n], and the
    monitor is connected exactly while [n < max_read_errors = 5]: it is
    disconnected after exactly five consecutive failures. *)
Theorem read_errors_disconnect
    (w : World) (ok : CycleInput) (device_data : list Z)
    (fails : list CycleInput)
    (Hconn : connected (self w) = true)
    (Hok : read ok = ReadData device_data)
    (Hfails : Forall (fun i => read i = ReadOSError) fails)
    (Hlen : (length fails <= 5)%nat) :
  read_error_count (self (monitor_cycle ok w)) = 0
  /\ connected (self (monitor_cycle ok w)) = true
  /\ read_error_count (self (run fails (monitor_cycle ok w)))
     = Z.of_nat (length fails)
  /\ connected (self (run fails (monitor_cycle ok w)))
     = (Z.of_nat (length fails) <? max_read_errors).
Proof.
  assert (H0 : read_error_count (self (monitor_cycle ok w)) = 0
               /\ connected (self (monitor_cycle ok w)) = true).
  { unfold monitor_cycle. rewrite Hconn, Hok. cbn. split; [reflexivity|].
    destruct (is_nonempty device_data); cbn; [|assumption].
    destruct (data_truthy _); cbn.
    - rewrite proccess_game_data_conn.
      destruct (process_device_data_conn device_data
                  (with_self (set_data (telemetry ok)) w)) as [-> _].
      assumption.
    - destruct (process_device_data_conn device_data
                  (with_self (set_data (telemetry ok)) w)) as [-> _].
      assumption. }
  destruct H0 as [Hcount Hc]. split; [assumption|]. split; [assumption|].
  destruct (failed_reads_run fails (monitor_cycle ok w)) as [H1 H2];
    try assumption.
  - rewrite Hcount. reflexivity.
  - rewrite Hcount. unfold max_read_errors. lia.
  - rewrite H1, H2, Hcount. auto.
Qed.

(** ** Output reconciliation *)

Lemma perform_app (acts1 acts2 : list Action) (c : Output -> bool) :
  fold_left perform (acts1 ++ acts2) c
  = fold_left perform acts2 (fold_left perform acts1 c).
Proof. apply fold_left_app. Qed.

Lemma perform_last_write (acts : list Action) (c : Output -> bool) (o : Output) :
  fold_left perform acts c o = default (c o) (last_write o acts).
Proof.
  revert c. induction acts as [|a acts IH]; intros c; cbn; [reflexivity|].
  rewrite IH. destruct (last_write o acts); cbn; [reflexivity|].
  destruct a as [o' v|ms]; cbn; [|reflexivity].
  unfold setattr. destruct (decide (o = o')), (decide (o' = o));
    cbn; congruence.
Qed.


Ltac wiper_cases s :=
  generalize (wiper_state s); intros ws;
  destruct (rain_sensor s); cbn [andb negb];
  repeat match goal with
  | |- context [ws =? ?k] =>
      destruct (Z.eqb_spec ws k); [subst ws; cbn [Z.eqb Pos.eqb andb negb]|]
  end; cbn [andb negb].

Ltac wiper_levels c :=
  rewrite ?perform_last_write; vm_compute last_write; cbn;
  destruct (c wipersback), (c wipers0), (c wipers1), (c tripreset);
  cbn in *; lia.

Lemma indicator_commands_wipers (d : gmap string bool) (s : Monitor)
    (c : Output -> bool) :
  wipers_held (fold_left perform (indicator_commands d s) c) = wipers_held c.
Proof.
  unfold indicator_commands. destruct (blinker_should_set d s) as [l r].
  destruct (_ && _); reflexivity.
Qed.

Lemma light_commands_wipers (d : gmap string bool) (s : Monitor)
    (c : Output -> bool) :
  wipers_held (fold_left perform (light_commands d s) c) = wipers_held c.
Proof. unfold light_commands. destruct (negb _); reflexivity. Qed.

Lemma wiper_commands_exclusive (s : Monitor) (c : Output -> bool) :
  at_most_one_wiper c ->
  at_most_one_wiper (fold_left perform (wiper_commands s) c).
Proof.
  unfold at_most_one_wiper, wipers_held, wiper_commands, reset_wipers.
  intros H.
  wiper_cases s; wiper_levels c.
Qed.

(** The selected output is the only one held after a cycle whenever
    [wiper_state] is one of the five values the buttons assign. *)
Lemma wiper_commands_select (s : Monitor) (c : Output -> bool) :
  In (wiper_state s) [-1; 0; 1; 2; 3] ->
  wipers_held (fold_left perform (wiper_commands s) c) = 1%nat.
Proof.
  unfold wipers_held, wiper_commands, reset_wipers. cbn [In].
  intros [<-|[<-|[<-|[<-|[<-|[]]]]]]; destruct (rain_sensor s); reflexivity.
Qed.

(** Every write of the wiper block keeps the exclusion, so a sink error
    that cuts the block short cannot leave two outputs held. *)
Lemma wiper_commands_exclusive_prefix (s : Monitor) (c : Output -> bool) (k : nat) :
  at_most_one_wiper c ->
  at_most_one_wiper (fold_left perform (take k (wiper_commands s)) c).
Proof.
  unfold at_most_one_wiper, wipers_held, wiper_commands, reset_wipers.
  intros H.
  wiper_cases s; cbn [app];
    do 12 (try (destruct k as [|k]; cbn [take]; [wiper_levels c|]));
    wiper_levels c.
Qed.

Lemma reconcile_exclusive (d : gmap string bool) (s : Monitor)
    (c : Output -> bool) :
  at_most_one_wiper c ->
  at_most_one_wiper (fold_left perform (reconcile d s) c).
Proof.
  intros H. unfold reconcile. rewrite !perform_app.
  apply wiper_commands_exclusive. unfold at_most_one_wiper.
  rewrite light_commands_wipers, indicator_commands_wipers. exact H.
Qed.

Lemma proccess_game_data_controller (w : World) :
  proccess_game_data w = w
  \/ exists d, data (self w) = Some d /\ truthy d = true
       /\ controller (proccess_game_data w)
          = fold_left perform (reconcile d (self (proccess_game_data w)))
                      (controller w)
       /\ sent (proccess_game_data w)
          = sent w ++ reconcile d (self (proccess_game_data w)).
Proof.
  unfold proccess_game_data.
  destruct (data (self w)) as [d|]; [|left; reflexivity].
  destruct (truthy d) eqn:Ht; cbn; [|left; reflexivity].
  right. exists d. auto.
Qed.


Lemma proccess_game_data_exclusive (w : World) :
  at_most_one_wiper (controller w) ->
  at_most_one_wiper (controller (proccess_game_data w)).
Proof.
  intros H. destruct (proccess_game_data_controller w) as [->|(d & _ & _ & -> & _)].
  - exact H.
  - apply reconcile_exclusive, H.
Qed.

#[local] Arguments process_device_data : simpl never.
#[local] Arguments proccess_game_data : simpl never.

Lemma monitor_cycle_exclusive (i : CycleInput) (w : World) :
  at_most_one_wiper (controller w) ->
  at_most_one_wiper (controller (monitor_cycle i w)).
Proof.
  intros H. unfold monitor_cycle, connect.
  destruct (connected (self w)); cbn.
  2: destruct (discovery i); cbn; [|exact H].
  all: destruct (read i) as [device_data| |]; cbn; try exact H.
  all: repeat match goal with
       | |- context [if ?b then _ else _] => destruct b; cbn
       end; try exact H.
  all: try apply proccess_game_data_exclusive.
  all: match goal with
       | |- context [process_device_data ?dd ?w'] =>
           destruct (process_device_data_conn dd w') as (_ & -> & _)
       end; exact H.
Qed.

(** C8. If at most one of the four wiper outputs (wipersback, tripreset,
    wipers0, wipers1) is held true before a reconciliation, then at most
    one is held true after it, for every [wiper_state] and [rain_sensor]
    value, and hence after every sequence of monitor cycles. *)
Theorem wipers_exclusive (w : World) (H : at_most_one_wiper (controller w)) :
  at_most_one_wiper (controller (proccess_game_data w))
  /\ forall inputs : list CycleInput,
       at_most_one_wiper (controller (run inputs w)).
Proof.
  split; [apply proccess_game_data_exclusive, H|].
  intros inputs. revert w H. induction inputs as [|i inputs IH]; intros w H.
  - exact H.
  - cbn. apply IH, monitor_cycle_exclusive, H.
Qed.

Lemma wiper_commands_no_pulse (s : Monitor) (o : Output) :
  pulsed o (wiper_commands s) = false.
Proof.
  unfold wiper_commands, reset_wipers.
  wiper_cases s; destruct o; reflexivity.
Qed.







(** ** Turn-signal automation *)

Ltac bool_to_prop :=
  repeat match goal with
  | H : (_ =? _) = true |- _ => apply Z.eqb_eq in H
  | H : (_ =? _) = false |- _ => apply Z.eqb_neq in H
  | H : (_ <? _) = true |- _ => apply Z.ltb_lt in H
  | H : (_ <? _) = false |- _ => apply Z.ltb_ge in H
  | H : (_ >? _) = true |- _ => rewrite Z.gtb_ltb in H
  | H : (_ >? _) = false |- _ => rewrite Z.gtb_ltb in H
  | H : (_ >=? _) = true |- _ => rewrite Z.geb_leb in H; apply Z.leb_le in H
  | H : (_ >=? _) = false |- _ => rewrite Z.geb_leb in H; apply Z.leb_gt in H
  end.

(** What the code computes for the observed-blinker flag: the hazards
    test guards the right side only. *)
Lemma blinker_state_spec (d : gmap string bool) (s : Monitor) :
  blinker_state d s = true <->
  (get d "blinkerLeftActive" = true /\ get d "blinkerLeftOn" = true
   /\ indicator_state s = -1)
  \/ (get d "blinkerRightActive" = true /\ get d "blinkerRightOn" = true
      /\ indicator_state s = 1 /\ get d "lightsHazards" = false).
Proof.
  unfold blinker_state.
  rewrite orb_true_iff, !andb_true_iff, negb_true_iff, !Z.eqb_eq. tauto.
Qed.

(** With hazards off the flag is the one the specification describes. *)
Lemma blinker_state_no_hazards (d : gmap string bool) (s : Monitor) :
  get d "lightsHazards" = false ->
  (blinker_state d s = true <->
   (get d "blinkerLeftActive" = true /\ get d "blinkerLeftOn" = true
    /\ indicator_state s = -1)
   \/ (get d "blinkerRightActive" = true /\ get d "blinkerRightOn" = true
       /\ indicator_state s = 1)).
Proof. intros Hh. rewrite blinker_state_spec. tauto. Qed.

(** On a falling edge with the indicator on the counter goes up by one,
    and the indicator is switched off (with [autodisable] cleared and the
    counter back to 0) exactly when [autodisable] is set and the new count
    has reached [autodisable_blinks]. *)
Lemma count_blink_falling_edge (s : Monitor) :
  prev_blinker_state s = true -> indicator_state s <> 0 ->
  if autodisable s && (blink_count s + 1 >=? autodisable_blinks)
  then indicator_state (count_blink false s) = 0
       /\ autodisable (count_blink false s) = false
       /\ blink_count (count_blink false s) = 0
  else indicator_state (count_blink false s) = indicator_state s
       /\ autodisable (count_blink false s) = autodisable s
       /\ blink_count (count_blink false s) = blink_count s + 1.
Proof.
  intros Hp Hi. unfold count_blink. rewrite Hp.
  destruct (Z.eqb_spec (indicator_state s) 0) as [|_]; [contradiction|].
  cbn. destruct (autodisable s && _); cbn; repeat split; reflexivity.
Qed.

(** Without a falling edge, or with the indicator off, nothing but
    [prev_blinker_state] changes. *)
Lemma count_blink_no_edge (blinker : bool) (s : Monitor) :
  prev_blinker_state s && negb blinker && negb (indicator_state s =? 0) = false ->
  count_blink blinker s = set_prev_blinker_state blinker s.
Proof. intros H. unfold count_blink. rewrite H. reflexivity. Qed.

Lemma blink_inv_init : blink_inv init_monitor.
Proof. unfold blink_inv, autodisable_blinks. cbn. repeat split; try lia; discriminate. Qed.

Lemma on_button_press_inv (b : Z) (w : World) :
  blink_inv (self w) -> blink_inv (self (on_button_press b w)).
Proof.
  unfold blink_inv, autodisable_blinks, autodisable_threshold.
  intros (H0 & Hoff & Hauto). press_cases; bool_to_prop;
    unfold autodisable_threshold in *;
    repeat split; try assumption; try lia; try discriminate; intros; lia.
Qed.

Lemma fold_dispatch_inv (evs : list ButtonEvent) (w : World) :
  blink_inv (self w) -> blink_inv (self (fold_left dispatch evs w)).
Proof.
  revert w. induction evs as [|[b []] evs IH]; intros w H; cbn.
  - exact H.
  - apply IH, on_button_press_inv, H.
  - apply IH, H.
Qed.

Lemma process_device_data_inv (device_data : list Z) (w : World) :
  blink_inv (self w) -> blink_inv (self (process_device_data device_data w)).
Proof.
  intros H. destruct (differ_calls device_data w) as [-> _].
  apply (fold_dispatch_inv (diff (last_state (self w)) device_data)) in H.
  exact H.
Qed.

Lemma resolve_cooldown_inv (now : Z) (s : Monitor) :
  blink_inv s -> blink_inv (resolve_cooldown now s).
Proof.
  unfold blink_inv, resolve_cooldown. intros (H0 & Hoff & Hauto).
  repeat match goal with
  | |- context [if ?c then _ else _] => destruct c; cbn
  end; repeat split; try assumption; try lia; discriminate.
Qed.

Lemma count_blink_inv (blinker : bool) (s : Monitor) :
  blink_inv s -> blink_inv (count_blink blinker s).
Proof.
  unfold blink_inv, count_blink, autodisable_blinks. intros (H0 & Hoff & Hauto).
  destruct (prev_blinker_state s && negb blinker
            && negb (indicator_state s =? 0)) eqn:Hedge; cbn.
  - apply andb_prop in Hedge. destruct Hedge as [_ Hon].
    apply negb_true_iff in Hon. bool_to_prop.
    destruct (autodisable s) eqn:Ha; cbn.
    + destruct (blink_count s + 1 >=? 3) eqn:Hc; cbn; bool_to_prop;
        repeat split; intros; try lia; discriminate.
    + repeat split; intros; try lia; congruence.
  - repeat split; assumption.
Qed.

Lemma proccess_game_data_inv (w : World) :
  blink_inv (self w) -> blink_inv (self (proccess_game_data w)).
Proof.
  intros H. unfold proccess_game_data.
  destruct (data (self w)) as [d|]; [|exact H].
  destruct (truthy d); cbn; [|exact H].
  apply count_blink_inv, resolve_cooldown_inv, H.
Qed.

Lemma monitor_cycle_inv (i : CycleInput) (w : World) :
  blink_inv (self w) -> blink_inv (self (monitor_cycle i w)).
Proof.
  intros H. unfold monitor_cycle, connect.
  destruct (connected (self w)); cbn.
  2: destruct (discovery i); cbn; [|exact H].
  all: destruct (read i) as [device_data| |]; cbn; try exact H.
  all: repeat match goal with
       | |- context [if ?b then _ else _] => destruct b; cbn
       end; try exact H.
  all: try apply (proccess_game_data_inv (process_device_data _ _)).
  all: apply (process_device_data_inv _ (with_self _ _)); exact H.
Qed.

Lemma run_inv (inputs : list CycleInput) (w : World) :
  blink_inv (self w) -> blink_inv (self (run inputs w)).
Proof.
  revert w. induction inputs as [|i inputs IH]; intros w H.
  - exact H.
  - cbn. apply IH, monitor_cycle_inv, H.
Qed.

(** In every state the monitor loop can reach, the counter is not
    negative and is zero while the indicator is off. *)
Lemma blink_count_reachable (clk : nat -> Z) (inputs : list CycleInput) :
  0 <= blink_count (self (run inputs (init_world clk)))
  /\ (indicator_state (self (run inputs (init_world clk))) = 0 ->
      blink_count (self (run inputs (init_world clk))) = 0).
Proof.
  destruct (run_inv inputs (init_world clk) blink_inv_init) as (? & ? & _).
  auto.
Qed.

(** Deferred-cooldown resolution over one call of [proccess_game_data]:
    what it changes and what it keeps. *)
Lemma proccess_game_data_resolve (w : World) (d : gmap string bool) :
  data (self w) = Some d -> truthy d = true ->
  last_turnsignal_time (self w) < clock w (ticks w) - switch_cooldown ->
  (data (self (proccess_game_data w)) = Some d
   /\ last_turnsignal_time (self (proccess_game_data w))
      = last_turnsignal_time (self w)
   /\ clock (proccess_game_data w) = clock w
   /\ ticks (proccess_game_data w) = S (ticks w))
  /\ (right_cooldown (self w) = true ->
      indicator_state (self (proccess_game_data w)) = 1
      /\ autodisable (self (proccess_game_data w)) = false
      /\ right_cooldown (self (proccess_game_data w)) = false
      /\ left_cooldown (self (proccess_game_data w)) = left_cooldown (self w))
  /\ (right_cooldown (self w) = false -> left_cooldown (self w) = true ->
      indicator_state (self (proccess_game_data w)) = -1
      /\ autodisable (self (proccess_game_data w)) = false
      /\ left_cooldown (self (proccess_game_data w)) = false
      /\ right_cooldown (self (proccess_game_data w)) = false).
Proof.
  intros Hd Ht Hlt. unfold proccess_game_data. rewrite Hd, Ht. cbn.
  apply Z.ltb_lt in Hlt. unfold resolve_cooldown. rewrite Hlt.
  split; [|split].
  - unfold count_blink.
    repeat match goal with
    | |- context [if ?c then _ else _] => destruct c; cbn
    end; repeat split; assumption.
  - intros Hr. rewrite Hr. unfold count_blink. cbn.
    destruct (_ && _); cbn; repeat split; reflexivity.
  - intros Hr Hl. rewrite Hr, Hl. unfold count_blink. cbn.
    destruct (_ && _); cbn; repeat split; auto.
Qed.

(** C2 (as amended).  When a snapshot is processed after the cooldown
    window has elapsed since [last_turnsignal_time], one pending flag is
    resolved, the right one first: with [right_cooldown] pending the
    indicator becomes Right, [autodisable] and [right_cooldown] are cleared
    and [left_cooldown] is left as it was; otherwise, with [left_cooldown]
    pending, the indicator becomes Left and [autodisable] and
    [left_cooldown] are cleared.  With both flags pending the indicator is
    Right after that cycle and Left after the next such cycle, whatever the
    order of the presses. *)
Theorem deferred_resolution (w : World) (d : gmap string bool)
    (Hd : data (self w) = Some d) (Ht : truthy d = true)
    (Hlt : last_turnsignal_time (self w) < clock w (ticks w) - switch_cooldown) :
  (right_cooldown (self w) = true ->
     indicator_state (self (proccess_game_data w)) = 1
     /\ autodisable (self (proccess_game_data w)) = false
     /\ right_cooldown (self (proccess_game_data w)) = false
     /\ left_cooldown (self (proccess_game_data w)) = left_cooldown (self w))
  /\ (right_cooldown (self w) = false -> left_cooldown (self w) = true ->
        indicator_state (self (proccess_game_data w)) = -1
        /\ autodisable (self (proccess_game_data w)) = false
        /\ left_cooldown (self (proccess_game_data w)) = false
        /\ right_cooldown (self (proccess_game_data w)) = false)
  /\ (right_cooldown (self w) = true -> left_cooldown (self w) = true ->
      last_turnsignal_time (self w) < clock w (S (ticks w)) - switch_cooldown ->
        indicator_state (self (proccess_game_data (proccess_game_data w))) = -1
        /\ autodisable (self (proccess_game_data (proccess_game_data w))) = false
        /\ left_cooldown (self (proccess_game_data (proccess_game_data w))) = false
        /\ right_cooldown (self (proccess_game_data (proccess_game_data w))) = false).
Proof.
  destruct (proccess_game_data_resolve w d Hd Ht Hlt)
    as ((Hd1 & Hlast & Hclk & Htk) & Hright & Hleft).
  split; [exact Hright|]. split; [exact Hleft|].
  intros Hr Hl Hlt2. destruct (Hright Hr) as (_ & _ & Hr1 & Hl1).
  rewrite Hl in Hl1.
  destruct (proccess_game_data_resolve (proccess_game_data w) d Hd1 Ht)
    as (_ & _ & Hleft2).
  - rewrite Hlast, Hclk, Htk. exact Hlt2.
  - exact (Hleft2 Hr1 Hl1).
Qed.

Lemma deferred_resolution_witness :
  indicator_state (self (proccess_game_data world_both_pending)) = 1
  /\ indicator_state
       (self (proccess_game_data (proccess_game_data world_both_pending))) = -1.
Proof.
  assert (Hd : data (self world_both_pending) = Some left_dark)
    by (vm_compute; reflexivity).
  assert (Ht : truthy left_dark = true) by (vm_compute; reflexivity).
  assert (Hlt : last_turnsignal_time (self world_both_pending)
                < clock world_both_pending (ticks world_both_pending)
                  - switch_cooldown) by (vm_compute; reflexivity).
  destruct (deferred_resolution world_both_pending left_dark Hd Ht Hlt)
    as (Hright & _ & Hboth).
  split.
  - apply Hright. vm_compute. reflexivity.
  - apply Hboth; vm_compute; reflexivity.
Defined.

(** C2 (as stated) fails.  Left is on with one blink counted; right and
    then left are pressed within the cooldown, so both flags are pending.
    The next cycle after the cooldown makes the indicator Right, not Left,
    keeps the left request pending, and keeps the blink count at 1 although
    the direction changed. *)
Lemma deferred_applies_right_first :
  indicator_state (self world_both_pending) = -1
  /\ right_cooldown (self world_both_pending) = true
  /\ left_cooldown (self world_both_pending) = true
  /\ last_turnsignal_time (self world_both_pending)
     < clock world_both_pending (ticks world_both_pending) - switch_cooldown
  /\ indicator_state
       (self (monitor_cycle (cycle [128; 3] left_dark) world_both_pending)) <> -1
  /\ indicator_state
       (self (monitor_cycle (cycle [128; 3] left_dark) world_both_pending)) = 1
  /\ left_cooldown
       (self (monitor_cycle (cycle [128; 3] left_dark) world_both_pending)) = true
  /\ blink_count
       (self (monitor_cycle (cycle [128; 3] left_dark) world_both_pending)) = 1.
Proof. vm_compute. repeat split; try reflexivity. discriminate. Qed.

(** C4 at its failing input.  In a run of the monitor loop the indicator
    is Left with one blink counted and a right request pending; the cycle
    after the cooldown changes the direction to Right and the counter is
    still 1. *)
Theorem deferred_change_keeps_blink_count :
  indicator_state (self world_right_pending) = -1
  /\ blink_count (self world_right_pending) = 1
  /\ indicator_state
       (self (monitor_cycle (cycle [128; 1] left_dark) world_right_pending)) = 1
  /\ blink_count
       (self (monitor_cycle (cycle [128; 1] left_dark) world_right_pending)) = 1.
Proof. vm_compute. repeat split; reflexivity. Qed.

(** C1 at its failing input.  With the indicator Left, the left lamp
    active and on, and the hazard lights engaged, the observed-blinker flag
    is true; in the loop the flag is remembered and the next dark snapshot,
    hazards still engaged, counts a blink. *)
Theorem hazards_left_observed :
  get left_lit_hazards "lightsHazards" = true
  /\ blinker_state left_lit_hazards (set_indicator_state (-1) init_monitor) = true
  /\ prev_blinker_state
       (self (run (take 3 left_with_hazards)
                  (init_world (clock_of readings_hazards)))) = true
  /\ blink_count
       (self (run left_with_hazards
                  (init_world (clock_of readings_hazards)))) = 1.
Proof. vm_compute. repeat split; reflexivity. Qed.

(** A cycle whose read returns nothing runs neither the differ nor the
    automation nor the reconciliation, snapshot or not: it stores the
    snapshot and clears the read-error counter. *)
Lemma empty_read_cycle (w : World) (i : CycleInput) :
  connected (self w) = true -> read i = ReadData [] ->
  monitor_cycle i w
  = with_self (set_read_error_count 0) (with_self (set_data (telemetry i)) w).
Proof. intros Hc Hr. unfold monitor_cycle. rewrite Hc, Hr. reflexivity. Qed.

(** C3 at its failing input.  Right and left are pending and the cooldown
    has elapsed; in a cycle whose read returns nothing while the snapshot
    is available no clock reading is taken, the pending request is not
    resolved and nothing is sent.  Processing the snapshot would have made
    the indicator Right. *)
Theorem empty_read_skips_automation :
  right_cooldown (self world_both_pending) = true
  /\ last_turnsignal_time (self world_both_pending)
     < clock world_both_pending (ticks world_both_pending) - switch_cooldown
  /\ indicator_state (self (monitor_cycle no_report world_both_pending)) = -1
  /\ right_cooldown (self (monitor_cycle no_report world_both_pending)) = true
  /\ sent (monitor_cycle no_report world_both_pending) = sent world_both_pending
  /\ ticks (monitor_cycle no_report world_both_pending) = ticks world_both_pending
  /\ indicator_state (self (proccess_game_data world_both_pending)) = 1.
Proof. vm_compute. repeat split; reflexivity. Qed.

(** The other half of C3: without a snapshot a cycle that reads a report
    runs the differ and the button handlers and nothing else. *)
Lemma no_snapshot_cycle (w : World) (i : CycleInput) (device_data : list Z) :
  connected (self w) = true -> read i = ReadData device_data ->
  telemetry i = None -> device_data <> [] ->
  monitor_cycle i w
  = with_self (set_read_error_count 0)
      (process_device_data device_data (with_self (set_data None) w)).
Proof.
  intros Hc Hr Ht Hne. unfold monitor_cycle. rewrite Hc, Hr, Ht.
  destruct device_data; [contradiction|]. reflexivity.
Qed.

(** With both a report and a snapshot the cycle runs the differ and then
    the automation and reconciliation, whether or not the report changed. *)
Lemma full_cycle (w : World) (i : CycleInput) (device_data : list Z)
    (d : gmap string bool) :
  connected (self w) = true -> read i = ReadData device_data ->
  telemetry i = Some d -> truthy d = true -> device_data <> [] ->
  monitor_cycle i w
  = with_self (set_read_error_count 0)
      (proccess_game_data
         (process_device_data device_data (with_self (set_data (Some d)) w))).
Proof.
  intros Hc Hr Ht Hd Hne. unfold monitor_cycle. rewrite Hc, Hr, Ht.
  destruct device_data; [contradiction|]. cbn [is_nonempty andb negb].
  unfold data_truthy. cbn [self with_self data set_data]. rewrite Hd. reflexivity.
Qed.

Lemma read_errors_disconnect_witness :
  connected
    (self (run (replicate 5 failed_read)
               (monitor_cycle (cycle [128; 3] left_dark) world_both_pending)))
  = (Z.of_nat (length (replicate 5 failed_read)) <? max_read_errors).
Proof.
  refine (proj2 (proj2 (proj2
    (read_errors_disconnect world_both_pending (cycle [128; 3] left_dark)
       [128; 3] (replicate 5 failed_read) _ _ _ _)))).
  - vm_compute. reflexivity.
  - reflexivity.
  - repeat constructor.
  - cbn. lia.
Defined.

Lemma wipers_exclusive_witness :
  at_most_one_wiper (controller (init_world (clock_of readings_both)))
  /\ at_most_one_wiper (controller world_both_pending).
Proof.
  assert (H : at_most_one_wiper (controller (init_world (clock_of readings_both))))
    by (unfold at_most_one_wiper; cbn; lia).
  split; [exact H|].
  exact (proj2 (wipers_exclusive _ H) both_pending).
Defined.



(** ** Further properties *)

(** *** Device discovery *)

Lemma first_exact_match_spec (devices : list DeviceInfo) (d : DeviceInfo) :
  first_exact_match devices = Some d <->
  exists before after : list DeviceInfo,
    devices = before ++ d :: after
    /\ product_string d = target_device_name
    /\ Forall (fun x => product_string x <> target_device_name) before.
Proof.
  induction devices as [|x rest IH]; cbn.
  - split; [discriminate|]. intros (before & after & Heq & _).
    destruct before; discriminate.
  - destruct (String.eqb_spec (product_string x) target_device_name) as [Hx|Hx].
    + split.
      * intros [= <-]. exists [], rest. repeat split; [assumption|constructor].
      * intros ([|y before] & after & Heq & Hd & Hb).
        -- injection Heq as <- _. reflexivity.
        -- injection Heq as <- _. apply Forall_cons in Hb. tauto.
    + rewrite IH. split.
      * intros (before & after & -> & Hd & Hb).
        exists (x :: before), after. repeat split; [assumption|].
        constructor; assumption.
      * intros ([|y before] & after & Heq & Hd & Hb).
        -- injection Heq as -> _. contradiction.
        -- injection Heq as <- ->. apply Forall_cons in Hb.
           exists before, after. tauto.
Qed.

(** X1. [find_moza_device] returns the first enumerated device whose
    product name is exactly "MOZA Multi-function Stalk", and returns
    nothing exactly when enumeration fails or no enumerated device has
    that exact name. *)
Theorem find_moza_device_first_exact (enumerated : option (list DeviceInfo)) :
  (forall d : DeviceInfo,
     find_moza_device enumerated = Some d <->
     exists devices before after : list DeviceInfo,
       enumerated = Some devices
       /\ devices = before ++ d :: after
       /\ product_string d = target_device_name
       /\ Forall (fun x => product_string x <> target_device_name) before)
  /\ (find_moza_device enumerated = None <->
      enumerated = None
      \/ exists devices : list DeviceInfo,
           enumerated = Some devices
           /\ Forall (fun x => product_string x <> target_device_name) devices).
Proof.
  destruct enumerated as [devices|]; cbn.
  - split.
    + intros d. rewrite first_exact_match_spec. split.
      * intros (before & after & ?). exists devices, before, after. tauto.
      * intros (ds & before & after & [= <-] & ?). exists before, after. tauto.
    + split.
      * intros Hnone. right. exists devices. split; [reflexivity|].
        induction devices as [|x rest IH]; [constructor|]. cbn in Hnone.
        destruct (String.eqb_spec (product_string x) target_device_name);
          [discriminate|]. constructor; auto.
      * intros [|(ds & [= <-] & Hall)]; [discriminate|].
        induction Hall as [|x rest Hx _ IH]; [reflexivity|]. cbn.
        destruct (String.eqb_spec (product_string x) target_device_name);
          [contradiction|assumption].
  - split.
    + intros d. split; [discriminate|]. intros (? & ? & ? & ? & _). discriminate.
    + split; auto.
Qed.

(** *** Report differ *)

Lemma report_events_nil (pairs : list (Z * Z)) (i : Z) :
  report_events i pairs = [] <->
  forall (k : nat) (o n bit : Z),
    pairs !! k = Some (o, n) -> 0 <= bit < 8 ->
    Z.testbit o bit = Z.testbit n bit.
Proof.
  split.
  - intros Hnil k o n bit Hk Hbit.
    destruct (Bool.bool_dec (Z.testbit o bit) (Z.testbit n bit)) as [|Hne];
      [assumption|].
    exfalso.
    assert (Hin : In (Event ((i + Z.of_nat k) * 8 + bit) (edge_of (Z.testbit n bit)))
                     (report_events i pairs)).
    { apply in_report_events. exists k, o, n, bit. repeat split; try tauto; lia. }
    rewrite Hnil in Hin. exact Hin.
  - intros Hsame. destruct (report_events i pairs) as [|[b e] rest] eqn:Heq;
      [reflexivity|]. exfalso.
    assert (Hin : In (Event b e) (report_events i pairs))
      by (rewrite Heq; left; reflexivity).
    apply in_report_events in Hin.
    destruct Hin as (k & o & n & bit & Hk & Hbit & _ & Hne & _).
    apply Hne. eapply Hsame; eauto.
Qed.

Lemma with_self_id (w : World) (f : Monitor -> Monitor) :
  f (self w) = self w -> with_self f w = w.
Proof. intros H. destruct w. unfold with_self. cbn in *. rewrite H. reflexivity. Qed.

Lemma set_last_state_id (s : Monitor) (v : option (list Z)) :
  last_state s = v -> set_last_state v s = s.
Proof. intros <-. destruct s. reflexivity. Qed.

Lemma diff_same (current : list Z) : diff (Some current) current = [].
Proof.
  rewrite diff_events. apply report_events_nil.
  intros k o n bit Hk _. apply lookup_zip_with_Some in Hk.
  destruct Hk as (o' & n' & [= -> ->] & Ho & Hn). congruence.
Qed.

Lemma process_same_report (current : list Z) (w : World) :
  last_state (self w) = Some current -> process_device_data current w = w.
Proof.
  intros Hlast. destruct (differ_calls current w) as [-> _].
  rewrite Hlast, diff_same. cbn. apply with_self_id, set_last_state_id, Hlast.
Qed.

(** X2. The differ calls no handler exactly when the two reports agree on
    the eight bits of every byte index they share; a report equal to the
    stored one leaves the whole world as it was. *)
Theorem unchanged_report_silent (last current : list Z) (w : World) :
  (diff (Some last) current = [] <->
   forall (k : nat) (o n bit : Z),
     last !! k = Some o -> current !! k = Some n -> 0 <= bit < 8 ->
     Z.testbit o bit = Z.testbit n bit)
  /\ diff (Some current) current = []
  /\ (last_state (self w) = Some current -> process_device_data current w = w).
Proof.
  assert (Hiff : forall l c : list Z,
            diff (Some l) c = [] <->
            forall (k : nat) (o n bit : Z),
              l !! k = Some o -> c !! k = Some n -> 0 <= bit < 8 ->
              Z.testbit o bit = Z.testbit n bit).
  { intros l c. rewrite diff_events, report_events_nil. split.
    - intros H k o n bit Ho Hn Hbit. apply (H k o n bit); [|assumption].
      apply lookup_zip_with_Some. eauto.
    - intros H k o n bit Hk Hbit. apply lookup_zip_with_Some in Hk.
      destruct Hk as (o' & n' & [= -> ->] & Ho & Hn). eauto. }
  split; [apply Hiff|]. split; [apply diff_same|].
  apply process_same_report.
Qed.

Lemma bit_events_flip (i o n bit : Z) :
  bit_events i n o bit = map flip_event (bit_events i o n bit).
Proof.
  unfold bit_events. destruct (Z.testbit o bit), (Z.testbit n bit); reflexivity.
Qed.

Lemma byte_events_flip (i o n : Z) :
  byte_events i n o = map flip_event (byte_events i o n).
Proof.
  unfold byte_events, range8. cbn [flat_map].
  rewrite !map_app, <- !bit_events_flip. reflexivity.
Qed.

Lemma report_events_flip (pairs : list (Z * Z)) (i : Z) :
  report_events i (map (fun p => (p.2, p.1)) pairs)
  = map flip_event (report_events i pairs).
Proof.
  revert i. induction pairs as [|[o n] rest IH]; intros i; cbn [map report_events].
  - reflexivity.
  - cbn [fst snd]. rewrite map_app, IH, byte_events_flip. reflexivity.
Qed.

Lemma zip_swap (l1 l2 : list Z) :
  zip l2 l1 = map (fun p => (p.2, p.1)) (zip l1 l2).
Proof.
  revert l2. induction l1 as [|a l1 IH]; intros [|b l2]; cbn; try reflexivity.
  f_equal. apply IH.
Qed.

(** X3. Exchanging the two reports gives the same events with every edge
    flipped: what is a press from [a] to [b] is a release from [b] to
    [a], in the same order. *)
Theorem diff_swap_flips_edges (a b : list Z) :
  diff (Some b) a = map flip_event (diff (Some a) b).
Proof.
  rewrite !diff_events, zip_swap. apply report_events_flip.
Qed.

(** X4. Every event carries the position of the bit it reports:
    [button_id // 8] is an index of both reports and bit
    [button_id % 8] of the two bytes there differs, the edge being the
    new bit's value. *)
Theorem event_id_decodes (last current : list Z) (b : Z) (e : Edge)
    (H : In (Event b e) (diff (Some last) current)) :
  0 <= b
  /\ exists o n : Z,
       last !! Z.to_nat (b / 8) = Some o
       /\ current !! Z.to_nat (b / 8) = Some n
       /\ Z.testbit o (b mod 8) <> Z.testbit n (b mod 8)
       /\ e = edge_of (Z.testbit n (b mod 8)).
Proof.
  rewrite diff_events in H. apply in_report_events in H.
  destruct H as (k & o & n & bit & Hk & Hbit & -> & Hne & ->).
  apply lookup_zip_with_Some in Hk.
  destruct Hk as (o' & n' & [= <- <-] & Ho & Hn).
  replace (0 + Z.of_nat k) with (Z.of_nat k) by lia.
  assert (Hdiv : (Z.of_nat k * 8 + bit) / 8 = Z.of_nat k)
    by (symmetry; apply (Z.div_unique _ 8 _ bit); lia).
  assert (Hmod : (Z.of_nat k * 8 + bit) mod 8 = bit)
    by (symmetry; apply (Z.mod_unique _ 8 (Z.of_nat k) bit); lia).
  rewrite Hdiv, Hmod, Nat2Z.id. split; [lia|]. exists o, n. auto.
Qed.

Lemma event_id_decodes_witness :
  exists o n : Z,
    [0; 0] !! Z.to_nat (9 / 8) = Some o
    /\ [0; 2] !! Z.to_nat (9 / 8) = Some n
    /\ Z.testbit o (9 mod 8) <> Z.testbit n (9 mod 8)
    /\ Pressed = edge_of (Z.testbit n (9 mod 8)).
Proof.
  assert (H : In (Event 9 Pressed) (diff (Some [0; 0]) [0; 2]))
    by (vm_compute; left; reflexivity).
  exact (proj2 (event_id_decodes [0; 0] [0; 2] 9 Pressed H)).
Defined.

Lemma zip_take (l1 l2 : list Z) :
  zip l1 l2
  = zip (take (Nat.min (length l1) (length l2)) l1)
        (take (Nat.min (length l1) (length l2)) l2).
Proof.
  revert l2. induction l1 as [|a l1 IH]; intros [|b l2]; cbn; try reflexivity.
  f_equal. apply IH.
Qed.

(** X5. Only the common prefix of the two reports is compared: bytes of
    the longer report beyond the length of the shorter one never produce
    an event, whatever they hold. *)
Theorem diff_common_prefix (last current : list Z) :
  diff (Some last) current
  = diff (Some (take (Nat.min (length last) (length current)) last))
         (take (Nat.min (length last) (length current)) current).
Proof. rewrite !diff_events, <- zip_take. reflexivity. Qed.

(** *** Connection supervision *)

Lemma set_connected_id (s : Monitor) (v : bool) :
  connected s = v -> set_connected v s = s.
Proof. intros <-. destruct s. reflexivity. Qed.

(** X6. While the monitor is disconnected and the device is not found
    (or cannot be opened), a cycle changes nothing at all: no report is
    read, no snapshot is stored, no clock reading is taken and nothing is
    sent, whatever the telemetry source would have delivered. *)
Theorem absent_device_cycle (i : CycleInput) (w : World)
    (Hc : connected (self w) = false) (Hd : discovery i = false) :
  monitor_cycle i w = w.
Proof.
  unfold monitor_cycle, connect, disconnect. rewrite Hc, Hd. cbn.
  apply with_self_id, set_connected_id, Hc.
Qed.

Lemma absent_device_cycle_witness :
  monitor_cycle (mkCycleInput false (ReadData [0; 2]) (Some left_lit))
                (init_world (clock_of readings_both))
  = init_world (clock_of readings_both).
Proof.
  apply absent_device_cycle; reflexivity.
Defined.

(** X7. [connect] succeeds from a disconnected monitor exactly when a
    device with the exact product name is enumerated and opening it does
    not raise; a connected monitor is left alone whatever is enumerated. *)
Theorem connect_needs_exact_device
    (enumerated : option (list DeviceInfo)) (open_ok : bool) (w : World) :
  (connected (self w) = true ->
   connect (discovered enumerated open_ok) w = (true, w))
  /\ (connected (self w) = false ->
      ((connect (discovered enumerated open_ok) w).1 = true <->
       open_ok = true
       /\ exists (devices : list DeviceInfo) (d : DeviceInfo),
            enumerated = Some devices /\ In d devices
            /\ product_string d = target_device_name)
      /\ connected (self (connect (discovered enumerated open_ok) w).2)
         = (connect (discovered enumerated open_ok) w).1).
Proof.
  split.
  - intros Hc. unfold connect. rewrite Hc. reflexivity.
  - intros Hc. unfold connect. rewrite Hc. unfold discovered.
    destruct (find_moza_device enumerated) as [d|] eqn:Hfind.
    + destruct enumerated as [devices|]; [|discriminate]. cbn in Hfind.
      apply first_exact_match_spec in Hfind.
      destruct Hfind as (before & after & -> & Hname & _).
      destruct open_ok; cbn; (split; [|reflexivity]).
      * split; [intros _|reflexivity]. split; [reflexivity|].
        exists (before ++ d :: after), d. repeat split; [|assumption].
        apply in_or_app. right. left. reflexivity.
      * split; [discriminate|]. intros [? _]. discriminate.
    + cbn. split; [|reflexivity]. split; [discriminate|].
      intros (_ & devices & d & -> & Hin & Hname). exfalso.
      cbn in Hfind. induction devices as [|x rest IH]; [destruct Hin|].
      cbn in Hfind.
      destruct (String.eqb_spec (product_string x) target_device_name) as [|Hx];
        [discriminate|].
      destruct Hin as [->|Hin]; [contradiction|auto].
Qed.

(** The handlers are not called on the first report after a connect. *)
Lemma baseline_report (device_data : list Z) (w : World) :
  last_state (self w) = None ->
  process_device_data device_data w
  = with_self (set_last_state (Some device_data)) w.
Proof. intros H. unfold process_device_data. rewrite H. reflexivity. Qed.

(** X8. The first report read after a (re)connect is taken as baseline:
    whatever buttons it shows as held, no handler runs, so with no
    snapshot in that cycle the turn-signal, light and wiper state are
    exactly what they were before the connection was lost. *)
Theorem reconnect_takes_baseline (i : CycleInput) (w : World)
    (device_data : list Z)
    (Hc : connected (self w) = false) (Hd : discovery i = true)
    (Hr : read i = ReadData device_data) (Ht : telemetry i = None) :
  monitor_cycle i w
  = with_self (fun s =>
      set_read_error_count 0
        (set_last_state (if is_nonempty device_data then Some device_data else None)
           (set_data None (set_connected true s)))) w.
Proof.
  unfold monitor_cycle, connect, disconnect. rewrite Hc, Hd, Hr, Ht. cbn.
  destruct device_data as [|x rest]; cbn.
  - destruct w as [s c snt clk t]. destruct s. reflexivity.
  - rewrite baseline_report by reflexivity.
    destruct w as [s c snt clk t]. destruct s. reflexivity.
Qed.

Lemma reconnect_takes_baseline_witness :
  monitor_cycle (mkCycleInput true (ReadData [128; 3]) None)
                (init_world (clock_of readings_both))
  = with_self (fun s =>
      set_read_error_count 0
        (set_last_state (Some [128; 3])
           (set_data None (set_connected true s))))
      (init_world (clock_of readings_both)).
Proof.
  exact (reconnect_takes_baseline
           (mkCycleInput true (ReadData [128; 3]) None)
           (init_world (clock_of readings_both)) [128; 3]
           eq_refl eq_refl eq_refl eq_refl).
Defined.

Lemma conn_inv_init : conn_inv init_monitor.
Proof. unfold conn_inv, max_read_errors. cbn. split; [lia|discriminate]. Qed.

Lemma process_device_data_count (device_data : list Z) (w : World) :
  read_error_count (self (process_device_data device_data w))
  = read_error_count (self w).
Proof.
  destruct (differ_calls device_data w) as [-> _].
  destruct (fold_dispatch_link (diff (last_state (self w)) device_data) w)
    as (_ & ? & _). cbn. assumption.
Qed.

Lemma monitor_cycle_conn_inv (i : CycleInput) (w : World) :
  conn_inv (self w) -> conn_inv (self (monitor_cycle i w)).
Proof.
  unfold conn_inv, max_read_errors. intros [Hrange Hlt].
  unfold monitor_cycle, connect, disconnect.
  destruct (connected (self w)) eqn:Hc; cbn.
  2: destruct (discovery i); cbn.
  all: destruct (read i) as [device_data| |]; cbn;
    try (split; [lia|discriminate]); try (split; [lia|intros; lia]).
  - unfold max_read_errors. rewrite Z.geb_leb.
    specialize (Hlt eq_refl).
    destruct (Z.leb_spec 5 (read_error_count (self w) + 1)); cbn.
    + split; [lia|discriminate].
    + split; [lia|intros; lia].
  - unfold max_read_errors. change (0 + 1 >=? 5) with false. cbn.
    split; [lia|intros; lia].
Qed.

(** X9. In every state the loop reaches from a fresh monitor the
    read-error counter lies between 0 and [max_read_errors] (5), and it is
    below 5 whenever the monitor is connected: reaching 5 always comes
    with the disconnect. *)
Theorem read_error_count_bounded (clk : nat -> Z) (inputs : list CycleInput) :
  0 <= read_error_count (self (run inputs (init_world clk))) <= max_read_errors
  /\ (connected (self (run inputs (init_world clk))) = true ->
      read_error_count (self (run inputs (init_world clk))) < max_read_errors).
Proof.
  assert (H : forall w, conn_inv (self w) -> conn_inv (self (run inputs w))).
  { induction inputs as [|i inputs IH]; intros w Hw; [exact Hw|].
    cbn. apply IH, monitor_cycle_conn_inv, Hw. }
  exact (H (init_world clk) conn_inv_init).
Qed.

(** X10. An empty telemetry dict counts as no snapshot: a cycle that
    reads a report and is handed an empty dict runs the differ and the
    button handlers only; no clock reading is taken for the cooldown, no
    blink is counted and nothing is sent. *)
Theorem empty_snapshot_cycle (i : CycleInput) (w : World) (device_data : list Z)
    (Hc : connected (self w) = true) (Hr : read i = ReadData device_data)
    (Ht : telemetry i = Some ∅) :
  monitor_cycle i w
  = with_self (set_read_error_count 0)
      (if is_nonempty device_data
       then process_device_data device_data (with_self (set_data (Some ∅)) w)
       else with_self (set_data (Some ∅)) w)
  /\ sent (monitor_cycle i w) = sent w.
Proof.
  assert (Heq : monitor_cycle i w
    = with_self (set_read_error_count 0)
        (if is_nonempty device_data
         then process_device_data device_data (with_self (set_data (Some ∅)) w)
         else with_self (set_data (Some ∅)) w)).
  { unfold monitor_cycle. rewrite Hc, Hr, Ht.
    destruct device_data; reflexivity. }
  split; [exact Heq|]. rewrite Heq.
  destruct (is_nonempty device_data); [|reflexivity].
  cbn [sent with_self].
  destruct (process_device_data_conn device_data
              (with_self (set_data (Some ∅)) w)) as (_ & _ & ->).
  reflexivity.
Qed.

Lemma empty_snapshot_cycle_witness :
  sent (monitor_cycle (mkCycleInput true (ReadData [128; 3]) (Some ∅))
                      world_both_pending)
  = sent world_both_pending.
Proof.
  refine (proj2 (empty_snapshot_cycle _ world_both_pending [128; 3] _ _ _)).
  - vm_compute. reflexivity.
  - reflexivity.
  - reflexivity.
Defined.

(** *** What a cycle preserves *)

(** A property of the monitor fields that the handlers and the
    automation keep, and that does not look at the connection fields or
    the stored snapshot, holds after every cycle. *)
Lemma monitor_cycle_keeps (P : Monitor -> Prop) :
  (forall b w, P (self w) -> P (self (on_button_press b w))) ->
  (forall w, P (self w) -> P (self (proccess_game_data w))) ->
  (forall s v, P s -> P (set_connected v s)) ->
  (forall s v, P s -> P (set_last_state v s)) ->
  (forall s v, P s -> P (set_data v s)) ->
  (forall s v, P s -> P (set_read_error_count v s)) ->
  forall i w, P (self w) -> P (self (monitor_cycle i w)).
Proof.
  intros Hpress Hgame Hconn Hlast Hdata Hcount i w H.
  assert (Hfold : forall evs w', P (self w') -> P (self (fold_left dispatch evs w'))).
  { induction evs as [|[b []] evs IH]; intros w' H'.
    - exact H'.
    - apply (IH (on_button_press b w')), Hpress, H'.
    - apply (IH w'), H'. }
  assert (Hdev : forall dd w', P (self w') ->
                   P (self (process_device_data dd w'))).
  { intros dd w' H'. destruct (differ_calls dd w') as [-> _]. cbn.
    apply Hlast, Hfold, H'. }
  unfold monitor_cycle, connect, disconnect.
  destruct (connected (self w)); cbn.
  2: destruct (discovery i); cbn; [|apply Hconn, H].
  all: destruct (read i) as [device_data| |]; cbn.
  all: repeat match goal with
       | |- context [if ?b then _ else _] => destruct b; cbn
       end.
  all: repeat first
         [ assumption
         | apply Hcount | apply Hconn | apply Hlast | apply Hdata
         | apply Hgame | apply Hdev ].
Qed.

Lemma run_keeps (P : Monitor -> Prop) :
  (forall i w, P (self w) -> P (self (monitor_cycle i w))) ->
  forall inputs w, P (self w) -> P (self (run inputs w)).
Proof.
  intros Hstep inputs. induction inputs as [|i inputs IH]; intros w H.
  - exact H.
  - cbn. apply IH, Hstep, H.
Qed.

(** The sink is written by [proccess_game_data] only. *)
Lemma monitor_cycle_keeps_controller (Q : (Output -> bool) -> Prop) :
  (forall w, Q (controller w) -> Q (controller (proccess_game_data w))) ->
  forall i w, Q (controller w) -> Q (controller (monitor_cycle i w)).
Proof.
  intros Hgame i w H. unfold monitor_cycle, connect.
  destruct (connected (self w)); cbn.
  2: destruct (discovery i); cbn; [|exact H].
  all: destruct (read i) as [device_data| |]; cbn; try exact H.
  all: repeat match goal with
       | |- context [if ?b then _ else _] => destruct b; cbn
       end; try exact H.
  all: try apply Hgame.
  all: match goal with
       | |- context [process_device_data ?dd ?w'] =>
           destruct (process_device_data_conn dd w') as (_ & -> & _)
       end; exact H.
Qed.

Lemma on_button_press_domain (b : Z) (w : World) :
  in_domain (self w) -> in_domain (self (on_button_press b w)).
Proof.
  unfold in_domain. intros (Hi & Hl & Hw). press_cases;
    repeat split; try assumption; cbn [In]; auto 6.
Qed.

Lemma proccess_game_data_domain (w : World) :
  in_domain (self w) -> in_domain (self (proccess_game_data w)).
Proof.
  unfold in_domain. intros (Hi & Hl & Hw). unfold proccess_game_data.
  destruct (data (self w)) as [d|]; [|auto].
  destruct (truthy d); cbn; [|auto].
  unfold count_blink, resolve_cooldown.
  repeat match goal with
  | |- context [if ?c then _ else _] => destruct c; cbn
  end; repeat split; try assumption; cbn [In]; auto 6.
Qed.

(** X11. In every state the loop reaches from a fresh monitor,
    [indicator_state] is -1, 0 or 1, [light_state] is 0, 1 or 2 and
    [wiper_state] is -1, 0, 1, 2 or 3: no sequence of reports, snapshots
    or read errors takes a selector outside the values the reconciler
    has a branch for. *)
Theorem selectors_in_domain (clk : nat -> Z) (inputs : list CycleInput) :
  In (indicator_state (self (run inputs (init_world clk)))) [-1; 0; 1]
  /\ In (light_state (self (run inputs (init_world clk)))) [0; 1; 2]
  /\ In (wiper_state (self (run inputs (init_world clk)))) [-1; 0; 1; 2; 3].
Proof.
  apply (run_keeps in_domain).
  - apply monitor_cycle_keeps; auto using on_button_press_domain,
      proccess_game_data_domain.
  - unfold in_domain. cbn. auto 8.
Qed.

Lemma proccess_game_data_rain (w : World) :
  rain_sensor (self (proccess_game_data w)) = rain_sensor (self w).
Proof.
  unfold proccess_game_data.
  destruct (data (self w)) as [d|]; [|reflexivity].
  destruct (truthy d); cbn; [|reflexivity].
  unfold count_blink, resolve_cooldown.
  repeat match goal with
  | |- context [if ?c then _ else _] => destruct c; cbn
  end; reflexivity.
Qed.

(** X12. Nothing ever sets [rain_sensor]: it is false in every state the
    loop reaches from a fresh monitor, so the sensor-mode branch of the
    wiper block is never taken and with [wiper_state] 0 the block always
    ends with [tripreset] held and [wipersback] low. *)
Theorem rain_sensor_never_set (clk : nat -> Z) (inputs : list CycleInput) :
  rain_sensor (self (run inputs (init_world clk))) = false
  /\ (wiper_state (self (run inputs (init_world clk))) = 0 ->
      forall c : Output -> bool,
        fold_left perform
          (wiper_commands (self (run inputs (init_world clk)))) c tripreset = true
        /\ fold_left perform
             (wiper_commands (self (run inputs (init_world clk)))) c wipersback
           = false).
Proof.
  assert (Hrain : rain_sensor (self (run inputs (init_world clk))) = false).
  { apply (run_keeps (fun s => rain_sensor s = false)); [|reflexivity].
    apply (monitor_cycle_keeps (fun s => rain_sensor s = false)); auto.
    - intros b w H. destruct (on_button_press_link b w) as (_ & _ & _ & _ & -> & _).
      exact H.
    - intros w H. rewrite proccess_game_data_rain. exact H. }
  split; [exact Hrain|]. intros Hw c.
  unfold wiper_commands. rewrite Hrain, Hw. cbn. split; reflexivity.
Qed.

(** X13. The wiper block selects by [wiper_state]: 0 gives [tripreset]
    (or [wipersback] when the rain sensor is set), 1 gives [wipersback],
    2 and -1 both give [wipers0], 3 gives [wipers1].  After the block the
    selected output is held and the other three wiper outputs are low,
    whatever the sink held before. *)
Theorem wiper_selection (s : Monitor) (c : Output -> bool) (o : Output)
    (H : selected_wiper (rain_sensor s) (wiper_state s) = Some o) :
  forall o' : Output,
    is_wiper o' = true ->
    fold_left perform (wiper_commands s) c o' = bool_decide (o' = o).
Proof.
  revert H. unfold selected_wiper, wiper_commands, reset_wipers.
  generalize (wiper_state s). intros ws.
  destruct (rain_sensor s); cbn [andb negb];
    repeat match goal with
    | |- context [ws =? ?k] =>
        destruct (Z.eqb_spec ws k); [subst ws; cbn [Z.eqb Pos.eqb andb negb]|]
    end; cbn [andb negb]; try discriminate;
    intros [= <-] o' Ho'; rewrite perform_last_write;
    destruct o'; try discriminate; vm_compute; reflexivity.
Qed.

Lemma wiper_selection_witness :
  fold_left perform (wiper_commands (set_wiper_state 3 init_monitor))
            init_controller wipers1
  = bool_decide (wipers1 = wipers1)
  /\ fold_left perform (wiper_commands (set_wiper_state 3 init_monitor))
               init_controller tripreset
     = bool_decide (tripreset = wipers1).
Proof.
  split.
  - exact (wiper_selection (set_wiper_state 3 init_monitor) init_controller
             wipers1 eq_refl wipers1 eq_refl).
  - exact (wiper_selection (set_wiper_state 3 init_monitor) init_controller
             wipers1 eq_refl tripreset eq_refl).
Defined.

Lemma spares_wipers_held (acts : list Action) (c : Output -> bool) :
  Forall spares_wipers acts ->
  wipers_held (fold_left perform acts c) = wipers_held c.
Proof.
  intros H. revert c. induction H as [|a acts Ha _ IH]; intros c; cbn.
  - reflexivity.
  - rewrite IH. destruct a as [o v|ms]; cbn; [|reflexivity].
    cbn in Ha. unfold wipers_held, setattr.
    destruct o; try discriminate; reflexivity.
Qed.

Lemma indicator_commands_spare (d : gmap string bool) (s : Monitor) :
  Forall spares_wipers (indicator_commands d s).
Proof.
  unfold indicator_commands. destruct (blinker_should_set d s) as [l r].
  destruct (_ && _); repeat constructor.
Qed.

Lemma light_commands_spare (d : gmap string bool) (s : Monitor) :
  Forall spares_wipers (light_commands d s).
Proof. unfold light_commands. destruct (negb _); repeat constructor. Qed.

(** X14. The exclusion of the wiper outputs holds after every single
    write of a reconciliation, not only at its end: if at most one wiper
    output is held before, at most one is held after any prefix of the
    commands, so a sink error that cuts the [try] block short cannot
    leave two of them held. *)
Theorem reconcile_exclusive_throughout
    (d : gmap string bool) (s : Monitor) (c : Output -> bool) (k : nat)
    (H : at_most_one_wiper c) :
  at_most_one_wiper (fold_left perform (take k (reconcile d s)) c).
Proof.
  unfold reconcile. rewrite !take_app, !perform_app.
  apply wiper_commands_exclusive_prefix. unfold at_most_one_wiper.
  rewrite !spares_wipers_held; [exact H| |].
  - apply Forall_take, indicator_commands_spare.
  - apply Forall_take, light_commands_spare.
Qed.

Lemma reconcile_exclusive_throughout_witness :
  at_most_one_wiper
    (fold_left perform
       (take 8 (reconcile idle (set_indicator_state (-1) init_monitor)))
       init_controller).
Proof.
  apply reconcile_exclusive_throughout.
  unfold at_most_one_wiper. cbn. lia.
Defined.

Lemma wiper_commands_spare_pulses (s : Monitor) (c : Output -> bool) (o : Output) :
  is_wiper o = false -> fold_left perform (wiper_commands s) c o = c o.
Proof.
  intros Ho. rewrite perform_last_write.
  unfold wiper_commands, reset_wipers. wiper_cases s;
    destruct o; try discriminate; reflexivity.
Qed.

Lemma wiper_commands_spare_pulses_all (s : Monitor) :
  Forall spares_pulses (wiper_commands s).
Proof.
  unfold wiper_commands, reset_wipers. wiper_cases s; repeat constructor.
Qed.

Lemma spares_pulses_keep (acts : list Action) (c : Output -> bool) (o : Output) :
  Forall spares_pulses acts -> is_wiper o = false ->
  fold_left perform acts c o = c o.
Proof.
  intros H Ho. revert c. induction H as [|a acts Ha _ IH]; intros c; cbn.
  - reflexivity.
  - rewrite IH. destruct a as [o' v|ms]; cbn; [|reflexivity].
    cbn in Ha. unfold setattr. destruct (decide (o = o')) as [->|]; [|reflexivity].
    congruence.
Qed.

Lemma proccess_game_data_cut_self (n : nat) (w : World) :
  self (proccess_game_data_cut n w) = self (proccess_game_data w)
  /\ ticks (proccess_game_data_cut n w) = ticks (proccess_game_data w).
Proof.
  unfold proccess_game_data_cut, proccess_game_data.
  destruct (data (self w)) as [d|]; [|split; reflexivity].
  destruct (truthy d); split; reflexivity.
Qed.

(** What the sink holds when the block is cut after [n] writes. *)
Lemma proccess_game_data_cut_sink (n : nat) (w : World) (d : gmap string bool) :
  data (self w) = Some d -> truthy d = true ->
  controller (proccess_game_data_cut n w)
  = fold_left perform (take n (reconcile d (self (proccess_game_data w))))
              (controller w).
Proof.
  intros Hd Ht. unfold proccess_game_data_cut, proccess_game_data.
  rewrite Hd, Ht. reflexivity.
Qed.

Ltac pulse_levels c Hl Hr Hlight :=
  cbn [take length app Nat.sub Nat.add]; rewrite ?take_nil;
  rewrite ?perform_last_write; vm_compute last_write; cbn;
  rewrite ?Hl, ?Hr, ?Hlight;
  repeat split; intros; try discriminate; try lia; try reflexivity.

(** X15. A pulse output is held after a reconciliation only when the
    block was cut short inside that output's pulse.  Starting with
    [lblinker], [rblinker] and [light] low, after any prefix of the
    writes: [lblinker] is true only if an indicator pulse is sent and the
    prefix ends after its first and before its fourth command; [rblinker]
    only if it ends after the second and before the fifth; [light] only
    if a light pulse is sent and the prefix ends after its first and
    before its third command.  Once the indicator and light commands have
    all been issued the three outputs are low. *)
Theorem pulse_held_only_inside_pulse
    (d : gmap string bool) (s : Monitor) (c : Output -> bool) (k : nat)
    (H : pulses_low c) :
  (fold_left perform (take k (reconcile d s)) c lblinker = true ->
   indicator_commands d s <> [] /\ (1 <= k <= 3)%nat)
  /\ (fold_left perform (take k (reconcile d s)) c rblinker = true ->
      indicator_commands d s <> [] /\ (2 <= k <= 4)%nat)
  /\ (fold_left perform (take k (reconcile d s)) c light = true ->
      light_commands d s <> []
      /\ (length (indicator_commands d s) + 1 <= k
          <= length (indicator_commands d s) + 2)%nat)
  /\ ((length (indicator_commands d s ++ light_commands d s) <= k)%nat ->
      pulses_low (fold_left perform (take k (reconcile d s)) c)).
Proof.
  destruct H as (Hl & Hr & Hlight). unfold pulses_low, reconcile.
  rewrite !take_app, !perform_app.
  rewrite !(spares_pulses_keep (take _ (wiper_commands s)))
    by (try reflexivity; apply Forall_take, wiper_commands_spare_pulses_all).
  unfold indicator_commands, light_commands.
  destruct (blinker_should_set d s) as [l r].
  destruct (_ && _); destruct (negb _); destruct l, r;
    do 10 (try (destruct k as [|k]; [pulse_levels c Hl Hr Hlight|]));
    pulse_levels c Hl Hr Hlight.
Qed.

(** The bound is met: cut after its first write, the indicator pulse
    leaves [lblinker] held. *)
Lemma cut_inside_pulse_holds_lblinker :
  fold_left perform
    (take 1 (reconcile idle (set_indicator_state (-1) init_monitor)))
    init_controller lblinker = true.
Proof. vm_compute. reflexivity. Qed.

Lemma pulse_held_only_inside_pulse_witness :
  pulses_low
    (fold_left perform
       (take 9 (reconcile idle (set_light_state 0
                                  (set_indicator_state (-1) init_monitor))))
       init_controller).
Proof.
  refine (proj2 (proj2 (proj2
    (pulse_held_only_inside_pulse idle
       (set_light_state 0 (set_indicator_state (-1) init_monitor))
       init_controller 9 _))) _).
  - repeat split.
  - vm_compute. lia.
Defined.

Lemma blinker_should_set_closed (d : gmap string bool) (s : Monitor) :
  blinker_should_set d s
  = ((indicator_state s =? -1) && negb (get d "blinkerLeftActive")
     || (indicator_state s =? 0) && get d "blinkerLeftActive",
     (indicator_state s =? 1) && negb (get d "blinkerRightActive")
     || (indicator_state s =? 0) && get d "blinkerRightActive").
Proof.
  unfold blinker_should_set.
  destruct (Z.eqb_spec (indicator_state s) (-1)) as [->|];
    [destruct (get d "blinkerLeftActive"); reflexivity|].
  destruct (Z.eqb_spec (indicator_state s) 1) as [->|];
    [destruct (get d "blinkerRightActive"); reflexivity|].
  destruct (Z.eqb_spec (indicator_state s) 0) as [_|];
    [|reflexivity].
  destruct (get d "blinkerLeftActive"), (get d "blinkerRightActive"); reflexivity.
Qed.

(** X16. An indicator pulse is sent exactly when both lamps are dark
    ([blinkerLeftOn] and [blinkerRightOn] false) and either the selected
    side is not active or, with the indicator off, some side is active.
    The pulse raises the selected side and only it: with Left selected
    the commands are [lblinker] true, [rblinker] false, the pause, and
    both false; with Right selected the mirror image; with the indicator
    off each output is raised exactly when its side is active. *)
Theorem indicator_pulse_iff (d : gmap string bool) (s : Monitor) :
  (indicator_commands d s <> [] <->
   (get d "blinkerLeftOn" = false /\ get d "blinkerRightOn" = false)
   /\ ((indicator_state s = -1 /\ get d "blinkerLeftActive" = false)
       \/ (indicator_state s = 1 /\ get d "blinkerRightActive" = false)
       \/ (indicator_state s = 0
           /\ (get d "blinkerLeftActive" = true
               \/ get d "blinkerRightActive" = true))))
  /\ (indicator_state s = -1 -> indicator_commands d s <> [] ->
      indicator_commands d s
      = [SetAttr lblinker true; SetAttr rblinker false; Sleep 50;
         SetAttr lblinker false; SetAttr rblinker false])
  /\ (indicator_state s = 1 -> indicator_commands d s <> [] ->
      indicator_commands d s
      = [SetAttr lblinker false; SetAttr rblinker true; Sleep 50;
         SetAttr lblinker false; SetAttr rblinker false])
  /\ (indicator_state s = 0 -> indicator_commands d s <> [] ->
      indicator_commands d s
      = [SetAttr lblinker (get d "blinkerLeftActive");
         SetAttr rblinker (get d "blinkerRightActive"); Sleep 50;
         SetAttr lblinker false; SetAttr rblinker false]).
Proof.
  unfold indicator_commands. rewrite blinker_should_set_closed.
  destruct (Z.eqb_spec (indicator_state s) (-1)) as [Hi|Hl];
    [rewrite Hi|];
    [|destruct (Z.eqb_spec (indicator_state s) 1) as [Hi|Hr];
      [rewrite Hi|];
      [|destruct (Z.eqb_spec (indicator_state s) 0) as [Hi|Ho]; [rewrite Hi|]]];
    cbn [Z.eqb Pos.eqb andb orb];
    destruct (get d "blinkerLeftActive"), (get d "blinkerRightActive"),
      (get d "blinkerLeftOn"), (get d "blinkerRightOn"); cbn;
    (split; [split; [intros H; try (exfalso; apply H; reflexivity)|]|]);
    intuition (try discriminate; try lia; try congruence).
Qed.

(** *** Turn-signal automation *)

(** X17. Pressing the same direction button twice has the effect of
    pressing it once, as long as both presses fall on the same side of
    the cooldown test: twice applied leaves the state of the first, twice
    deferred leaves the one pending flag set. *)
Theorem repeated_press_idempotent (w : World)
    (H : (clock w (ticks w) - last_turnsignal_time (self w) >? switch_cooldown)
         = (clock w (S (ticks w)) - last_turnsignal_time (self w)
            >? switch_cooldown)) :
  self (on_button_press 7 (on_button_press 7 w)) = self (on_button_press 7 w)
  /\ self (on_button_press 9 (on_button_press 9 w)) = self (on_button_press 9 w).
Proof.
  destruct w as [s c snt clk t]. destruct s. cbn in H.
  unfold on_button_press, time_time. cbn.
  destruct (clk t - last_turnsignal_time0 >? switch_cooldown); cbn;
    rewrite <- ?H; cbn.
  - destruct (indicator_state0 =? 1), (indicator_state0 =? -1); cbn;
      rewrite <- ?H; cbn; split; reflexivity.
  - split; reflexivity.
Qed.

Lemma repeated_press_idempotent_witness :
  self (on_button_press 7 (on_button_press 7 (init_world (fun _ => 1000))))
  = self (on_button_press 7 (init_world (fun _ => 1000))).
Proof.
  exact (proj1 (repeated_press_idempotent (init_world (fun _ => 1000)) eq_refl)).
Defined.

Lemma on_button_press_last (b : Z) (w : World) :
  b <> 8 ->
  last_turnsignal_time (self (on_button_press b w))
  = last_turnsignal_time (self w).
Proof.
  intros Hb. unfold on_button_press, time_time. cbn.
  destruct (b =? 7); [destruct (negb _); [|destruct (negb _)]; reflexivity|].
  destruct (b =? 9); [destruct (negb _); [|destruct (negb _)]; reflexivity|].
  destruct (Z.eqb_spec b 8); [contradiction|].
  repeat match goal with
  | |- context [if ?c then _ else _] => destruct c; cbn
  end; reflexivity.
Qed.

Lemma proccess_game_data_last (w : World) :
  last_turnsignal_time (self (proccess_game_data w))
  = last_turnsignal_time (self w).
Proof.
  unfold proccess_game_data.
  destruct (data (self w)) as [d|]; [|reflexivity].
  destruct (truthy d); cbn; [|reflexivity].
  unfold count_blink, resolve_cooldown.
  repeat match goal with
  | |- context [if ?c then _ else _] => destruct c; cbn
  end; reflexivity.
Qed.

Lemma fold_dispatch_last (evs : list ButtonEvent) (w : World) :
  ~ In (Event 8 Pressed) evs ->
  last_turnsignal_time (self (fold_left dispatch evs w))
  = last_turnsignal_time (self w).
Proof.
  revert w. induction evs as [|[b []] evs IH]; intros w Hn; cbn [fold_left].
  - reflexivity.
  - change (dispatch w (Event b Pressed)) with (on_button_press b w).
    rewrite IH by (intros Hin; apply Hn; right; exact Hin).
    apply on_button_press_last. intros ->. apply Hn. left. reflexivity.
  - change (dispatch w (Event b Released)) with w.
    apply IH. intros Hin. apply Hn. right. exact Hin.
Qed.

(** X18. Only a press of the cancel button moves [last_turnsignal_time]:
    a cycle whose report shows no press of button 8 leaves it unchanged,
    whatever else is pressed and whatever the snapshot, so the cooldown
    window is measured from the last cancel press and a direction press
    never starts or extends it. *)
Theorem cooldown_starts_at_cancel (i : CycleInput) (w : World)
    (device_data : list Z)
    (Hc : connected (self w) = true)
    (Hr : read i = ReadData device_data)
    (Hn : ~ In (Event 8 Pressed) (diff (last_state (self w)) device_data)) :
  last_turnsignal_time (self (monitor_cycle i w))
  = last_turnsignal_time (self w).
Proof.
  assert (Hdev : forall v,
            last_turnsignal_time
              (self (process_device_data device_data (with_self (set_data v) w)))
            = last_turnsignal_time (self w)).
  { intros v. destruct (differ_calls device_data (with_self (set_data v) w))
      as [-> _]. cbn [self with_self].
    change (last_turnsignal_time (set_last_state (Some device_data) ?s))
      with (last_turnsignal_time s).
    rewrite fold_dispatch_last; [reflexivity|exact Hn]. }
  unfold monitor_cycle. rewrite Hc, Hr. cbn [negb self with_self].
  change (last_turnsignal_time (set_read_error_count 0 ?s))
    with (last_turnsignal_time s).
  destruct (is_nonempty device_data); cbn [andb].
  - destruct (data_truthy _).
    + rewrite proccess_game_data_last. apply Hdev.
    + apply Hdev.
  - reflexivity.
Qed.

Lemma cooldown_starts_at_cancel_witness :
  last_turnsignal_time
    (self (monitor_cycle (cycle [128; 3] left_dark) world_left_centered))
  = last_turnsignal_time (self world_left_centered).
Proof.
  apply (cooldown_starts_at_cancel _ _ [128; 3]).
  - vm_compute. reflexivity.
  - reflexivity.
  - vm_compute. intros [H|[H|[]]]; discriminate.
Defined.

(** X19. With no request pending, the automation changes
    [indicator_state] in one way only: it switches it off, and only when
    [autodisable] was set.  It never switches the indicator on or to the
    other side by itself. *)
Theorem automation_only_cancels (w : World)
    (Hr : right_cooldown (self w) = false)
    (Hl : left_cooldown (self w) = false) :
  indicator_state (self (proccess_game_data w)) = indicator_state (self w)
  \/ (indicator_state (self (proccess_game_data w)) = 0
      /\ autodisable (self w) = true
      /\ blink_count (self w) + 1 >= autodisable_blinks).
Proof.
  unfold proccess_game_data.
  destruct (data (self w)) as [d|]; [|left; reflexivity].
  destruct (truthy d); cbn; [|left; reflexivity].
  unfold resolve_cooldown. rewrite Hr, Hl.
  replace (if last_turnsignal_time (self w) <? clock w (ticks w) - switch_cooldown
           then self w else self w) with (self w)
    by (destruct (_ <? _); reflexivity).
  unfold count_blink.
  destruct (_ && _ && _); cbn; [|left; reflexivity].
  destruct (autodisable (self w)); cbn; [|left; reflexivity].
  destruct (blink_count (self w) + 1 >=? autodisable_blinks) eqn:E; cbn.
  - right. bool_to_prop. split; [reflexivity|]. split; [reflexivity|lia].
  - left. reflexivity.
Qed.

Lemma automation_only_cancels_witness :
  indicator_state (self (proccess_game_data world_left_centered))
  = indicator_state (self world_left_centered)
  \/ (indicator_state (self (proccess_game_data world_left_centered)) = 0
      /\ autodisable (self world_left_centered) = true
      /\ blink_count (self world_left_centered) + 1 >= autodisable_blinks).
Proof.
  apply automation_only_cancels; vm_compute; reflexivity.
Defined.



(** X21. In every state the loop reaches from a fresh monitor, while
    [autodisable] is set the blink count is below [autodisable_blinks]
    (3): the count that reaches 3 is the one that switches the indicator
    off. *)
Theorem autodisable_count_below (clk : nat -> Z) (inputs : list CycleInput)
    (H : autodisable (self (run inputs (init_world clk))) = true) :
  blink_count (self (run inputs (init_world clk))) < autodisable_blinks.
Proof.
  destruct (run_inv inputs (init_world clk) blink_inv_init) as (_ & _ & Ha).
  apply Ha, H.
Qed.

Lemma autodisable_count_below_witness :
  blink_count (self (run both_pending (init_world (clock_of readings_both))))
  < autodisable_blinks.
Proof.
  apply autodisable_count_below. vm_compute. reflexivity.
Defined.

(** *** Blinks seen by the loop *)

Lemma count_blink_lit (s : Monitor) :
  count_blink true s = set_prev_blinker_state true s.
Proof.
  unfold count_blink. destruct (prev_blinker_state s); reflexivity.
Qed.

Lemma count_blink_frame (blinker : bool) (s : Monitor) :
  connected (count_blink blinker s) = connected s
  /\ last_state (count_blink blinker s) = last_state s
  /\ right_cooldown (count_blink blinker s) = right_cooldown s
  /\ left_cooldown (count_blink blinker s) = left_cooldown s.
Proof.
  unfold count_blink.
  repeat match goal with
  | |- context [if ?c then _ else _] => destruct c; cbn
  end; repeat split; reflexivity.
Qed.

(** A cycle of a steady loop: the report calls no handler, no request is
    resolved, and the snapshot goes through the blink counter. *)
Lemma steady_cycle (report : list Z) (d : gmap string bool) (w : World) :
  steady report (self w) -> truthy d = true ->
  self (monitor_cycle (cycle report d) w)
  = set_read_error_count 0
      (count_blink (blinker_state d (self w)) (set_data (Some d) (self w))).
Proof.
  intros (Hc & Hlast & Hne & Hr & Hl) Ht.
  unfold monitor_cycle, cycle. cbn [read telemetry discovery].
  rewrite Hc. cbn [negb]. rewrite Hne. unfold data_truthy.
  cbn [self with_self data set_data]. rewrite Ht. cbn [andb].
  rewrite process_same_report by exact Hlast.
  unfold proccess_game_data. cbn [self with_self data set_data].
  rewrite Ht. cbn. unfold resolve_cooldown. cbn. rewrite Hr, Hl.
  destruct (_ <? _); reflexivity.
Qed.

Lemma one_blink_counts (report : list Z) (lit dark : gmap string bool) (w : World) :
  steady report (self w) -> truthy lit = true -> truthy dark = true ->
  blinker_state lit (self w) = true -> blinker_state dark (self w) = false ->
  indicator_state (self w) <> 0 ->
  steady report (self (run (one_blink report lit dark) w))
  /\ if autodisable (self w) && (blink_count (self w) + 1 >=? autodisable_blinks)
     then indicator_state (self (run (one_blink report lit dark) w)) = 0
          /\ autodisable (self (run (one_blink report lit dark) w)) = false
          /\ blink_count (self (run (one_blink report lit dark) w)) = 0
     else indicator_state (self (run (one_blink report lit dark) w))
          = indicator_state (self w)
          /\ autodisable (self (run (one_blink report lit dark) w))
             = autodisable (self w)
          /\ blink_count (self (run (one_blink report lit dark) w))
             = blink_count (self w) + 1.
Proof.
  intros Hst Hlit Hdark Hon Hoff Hind.
  pose proof Hst as (Hc & Hlast & Hne & Hr & Hl).
  unfold run, one_blink. cbn [fold_left].
  pose proof (steady_cycle report lit w Hst Hlit) as H1.
  rewrite Hon, count_blink_lit in H1.
  assert (Hst1 : steady report (self (monitor_cycle (cycle report lit) w))).
  { rewrite H1. unfold steady.
    cbn [connected last_state right_cooldown left_cooldown set_data
         set_read_error_count set_prev_blinker_state].
    split; [exact Hc|]. split; [exact Hlast|]. split; [exact Hne|].
    split; [exact Hr|exact Hl]. }
  pose proof (steady_cycle report dark _ Hst1 Hdark) as H2.
  rewrite H1 in H2.
  change (blinker_state dark
            (set_read_error_count 0
               (set_prev_blinker_state true (set_data (Some lit) (self w)))))
    with (blinker_state dark (self w)) in H2.
  rewrite Hoff in H2. rewrite H2.
  set (x := set_data (Some dark)
              (set_read_error_count 0
                 (set_prev_blinker_state true (set_data (Some lit) (self w))))).
  assert (Hxp : prev_blinker_state x = true) by reflexivity.
  assert (Hxi : indicator_state x = indicator_state (self w)) by reflexivity.
  assert (Hxa : autodisable x = autodisable (self w)) by reflexivity.
  assert (Hxb : blink_count x = blink_count (self w)) by reflexivity.
  assert (Hxc : connected x = connected (self w)) by reflexivity.
  assert (Hxl : last_state x = last_state (self w)) by reflexivity.
  assert (Hxr : right_cooldown x = right_cooldown (self w)) by reflexivity.
  assert (Hxlc : left_cooldown x = left_cooldown (self w)) by reflexivity.
  clearbody x.
  cbn [connected last_state right_cooldown left_cooldown autodisable
       blink_count indicator_state set_read_error_count].
  unfold steady.
  cbn [connected last_state right_cooldown left_cooldown set_read_error_count].
  destruct (count_blink_frame false x) as (Hc' & Hl' & Hr' & Hlc').
  rewrite Hc', Hl', Hr', Hlc', Hxc, Hxl, Hxr, Hxlc.
  split.
  - split; [exact Hc|]. split; [exact Hlast|]. split; [exact Hne|].
    split; [exact Hr|exact Hl].
  - assert (Hind' : indicator_state x <> 0) by (rewrite Hxi; exact Hind).
    pose proof (count_blink_falling_edge x Hxp Hind') as Hedge.
    rewrite Hxa, Hxb, Hxi in Hedge. exact Hedge.
Qed.

Lemma blinker_state_indicator (d : gmap string bool) (s s' : Monitor) :
  indicator_state s' = indicator_state s ->
  blinker_state d s' = blinker_state d s.
Proof. intros H. unfold blinker_state. rewrite H. reflexivity. Qed.

(** X22. Self-cancelling: with the stalk back at center before any blink
    was counted ([autodisable] set, count 0), no request pending and the
    report unchanged, the indicator stays on through two blinks of the
    lamp seen by the loop and is switched off, with [autodisable] cleared
    and the count back at 0, by the third. *)
Theorem three_blinks_cancel
    (report : list Z) (lit dark : gmap string bool) (w : World)
    (Hst : steady report (self w))
    (Hlit : truthy lit = true) (Hdark : truthy dark = true)
    (Hon : blinker_state lit (self w) = true)
    (Hoff : blinker_state dark (self w) = false)
    (Hind : indicator_state (self w) <> 0)
    (Hauto : autodisable (self w) = true)
    (Hcount : blink_count (self w) = 0) :
  (indicator_state
     (self (run (one_blink report lit dark ++ one_blink report lit dark) w))
   = indicator_state (self w)
   /\ blink_count
        (self (run (one_blink report lit dark ++ one_blink report lit dark) w))
      = 2)
  /\ indicator_state
       (self (run (one_blink report lit dark ++ one_blink report lit dark
                   ++ one_blink report lit dark) w)) = 0
  /\ autodisable
       (self (run (one_blink report lit dark ++ one_blink report lit dark
                   ++ one_blink report lit dark) w)) = false
  /\ blink_count
       (self (run (one_blink report lit dark ++ one_blink report lit dark
                   ++ one_blink report lit dark) w)) = 0.
Proof.
  assert (Hrun : forall l1 l2 w', run (l1 ++ l2) w' = run l2 (run l1 w'))
    by (intros; apply fold_left_app).
  destruct (one_blink_counts report lit dark w Hst Hlit Hdark Hon Hoff Hind)
    as (Hst1 & H1).
  rewrite Hauto, Hcount in H1.
  change (true && (0 + 1 >=? autodisable_blinks)) with false in H1.
  cbv beta iota in H1. destruct H1 as (Hi1 & Ha1 & Hc1).
  set (w1 := run (one_blink report lit dark) w) in *.
  assert (Hon1 : blinker_state lit (self w1) = true)
    by (rewrite (blinker_state_indicator lit (self w) (self w1) Hi1); exact Hon).
  assert (Hoff1 : blinker_state dark (self w1) = false)
    by (rewrite (blinker_state_indicator dark (self w) (self w1) Hi1); exact Hoff).
  assert (Hind1 : indicator_state (self w1) <> 0) by (rewrite Hi1; exact Hind).
  destruct (one_blink_counts report lit dark w1 Hst1 Hlit Hdark Hon1 Hoff1 Hind1)
    as (Hst2 & H2).
  rewrite Ha1, Hc1 in H2.
  change (true && (0 + 1 + 1 >=? autodisable_blinks)) with false in H2.
  cbv beta iota in H2. destruct H2 as (Hi2 & Ha2 & Hc2).
  set (w2 := run (one_blink report lit dark) w1) in *.
  assert (Hon2 : blinker_state lit (self w2) = true)
    by (rewrite (blinker_state_indicator lit (self w1) (self w2) Hi2); exact Hon1).
  assert (Hoff2 : blinker_state dark (self w2) = false)
    by (rewrite (blinker_state_indicator dark (self w1) (self w2) Hi2); exact Hoff1).
  assert (Hind2 : indicator_state (self w2) <> 0) by (rewrite Hi2; exact Hind1).
  destruct (one_blink_counts report lit dark w2 Hst2 Hlit Hdark Hon2 Hoff2 Hind2)
    as (_ & H3).
  rewrite Ha2, Hc2 in H3.
  change (true && (0 + 1 + 1 + 1 >=? autodisable_blinks)) with true in H3.
  cbv beta iota in H3.
  rewrite !Hrun. fold w1. fold w2. split.
  - split; [congruence|]. rewrite Hc2. reflexivity.
  - exact H3.
Qed.

Lemma three_blinks_cancel_witness :
  indicator_state
    (self (run (one_blink [0; 1] left_lit left_dark
                ++ one_blink [0; 1] left_lit left_dark
                ++ one_blink [0; 1] left_lit left_dark)
               world_left_centered)) = 0.
Proof.
  refine (proj1 (proj2
    (three_blinks_cancel [0; 1] left_lit left_dark world_left_centered
       _ _ _ _ _ _ _ _))).
  - unfold steady. vm_compute. repeat split; reflexivity.
  - vm_compute. reflexivity.
  - vm_compute. reflexivity.
  - vm_compute. reflexivity.
  - vm_compute. reflexivity.
  - vm_compute. discriminate.
  - vm_compute. reflexivity.
  - vm_compute. reflexivity.
Defined.
